(** * Canvas course builder: the tool-call interpretation and confirmation engine

    A shallow embedding of the chat handler of [app.py] ([render_chat] and its
    helpers [convert_argument_types] and [detect_placeholders]) together with
    the properties stated about it.

    Modelling conventions.
    - Python [str] values are Rocq [string]s.  The model is exact on ASCII
      text: [upper], [lower] and [strip] act on the ASCII letters and the
      ASCII white space only.
    - Python values that travel through the handler (decoded JSON, tool
      arguments, executor results) are the inductive [pyval].  A Python
      [dict] is an association list in insertion order, with the dictionary
      operations written out ([dget], [dset], [dremove]).
    - The Python built-ins and the two external collaborators the handler
      calls ([int], [float], [str], [json.loads], [json.dumps], the Groq chat
      service and the Canvas client) are the fields of the record [env];
      every definition of the handler takes the environment as an argument.
    - [st.session_state] is the record [session]; the extra field
      [invocations] logs the calls made to the Canvas client by the chat
      handler, so that statements can count them. *)

From Stdlib Require Import String Ascii List ZArith Bool Arith Lia DecimalString.
Import ListNotations.
Set Warnings "-register-all".
Open Scope list_scope.
Open Scope string_scope.

(* ================================================================= *)
(** ** Python strings *)

Definition dq : string := String "034"%char EmptyString.
Definition nl : string := String "010"%char EmptyString.

(** [q s] is [s] between double quotes, as it appears in JSON text. *)
Definition q (s : string) : string := dq ++ s ++ dq.

Definition is_space (c : ascii) : bool :=
  let n := nat_of_ascii c in
  (((9 <=? n) && (n <=? 13)) || ((28 <=? n) && (n <=? 32)))%nat.

Definition is_lower_letter (c : ascii) : bool :=
  let n := nat_of_ascii c in ((97 <=? n) && (n <=? 122))%nat.

Definition is_upper_letter (c : ascii) : bool :=
  let n := nat_of_ascii c in ((65 <=? n) && (n <=? 90))%nat.

Definition upper_char (c : ascii) : ascii :=
  if is_lower_letter c then ascii_of_nat (nat_of_ascii c - 32) else c.

Definition lower_char (c : ascii) : ascii :=
  if is_upper_letter c then ascii_of_nat (nat_of_ascii c + 32) else c.

Fixpoint map_string (f : ascii -> ascii) (s : string) : string :=
  match s with
  | EmptyString => EmptyString
  | String c s' => String (f c) (map_string f s')
  end.

(** [s.upper()] and [s.lower()] on ASCII text: the letters a-z and A-Z are
    mapped and every other character is kept.  Python also maps letters
    outside ASCII (the dotless i to I, the Kelvin sign to k); text with such
    letters is outside the model. *)
Definition upper (s : string) : string := map_string upper_char s.
Definition lower (s : string) : string := map_string lower_char s.

(** [s.startswith(p)]. *)
Fixpoint startswith (p s : string) : bool :=
  match p, s with
  | EmptyString, _ => true
  | String a p', String b s' => Ascii.eqb a b && startswith p' s'
  | String _ _, EmptyString => false
  end.

(** [pat in s] for strings. *)
Fixpoint contains (pat s : string) : bool :=
  startswith pat s ||
  match s with
  | EmptyString => false
  | String _ s' => contains pat s'
  end.

(** [s.endswith(p)]. *)

Fixpoint endswith (p s : string) : bool :=
  String.eqb p s ||
  match s with
  | EmptyString => false
  | String _ s' => endswith p s'
  end.

Fixpoint lstrip (s : string) : string :=
  match s with
  | EmptyString => EmptyString
  | String c s' => if is_space c then lstrip s' else s
  end.

Fixpoint rstrip (s : string) : string :=
  match s with
  | EmptyString => EmptyString
  | String c s' =>
      match rstrip s' with
      | EmptyString => if is_space c then EmptyString else String c EmptyString
      | r => String c r
      end
  end.

(** [s.strip()] on ASCII text: the characters 9 to 13 and 28 to 32 are
    removed at both ends.  Python also removes the spaces outside ASCII
    (the no-break space and the like). *)
Definition strip (s : string) : string := rstrip (lstrip s).

(** [x in l] for a list of strings. *)
Definition mem (x : string) (l : list string) : bool :=
  existsb (String.eqb x) l.

(** [sep.join(l)]. *)
Definition join (sep : string) (l : list string) : string := String.concat sep l.

(* ================================================================= *)
(** ** Python values *)

(** A Python [float]: a decimal [m * 10^e], an infinity or not-a-number.
    Rounding to binary64 is not modelled. *)
Inductive pyfloat : Type :=
| FDec (m e : Z)
| FInf (negative : bool)
| FNaN.

Inductive pyval : Type :=
| VNone
| VBool (b : bool)
| VInt (z : Z)
| VFloat (f : pyfloat)
| VStr (s : string)
| VList (l : list pyval)
| VDict (d : list (string * pyval)).

(** A dictionary with string keys, in insertion order. *)
Definition dict : Type := list (string * pyval).

Definition float_is_zero (f : pyfloat) : bool :=
  match f with
  | FDec m _ => (m =? 0)%Z
  | _ => false
  end.

(** The float equals the integer 1. *)
Definition float_is_one (f : pyfloat) : bool :=
  match f with
  | FDec m e =>
      if (0 <=? e)%Z then (m * 10 ^ e =? 1)%Z else (m =? 10 ^ (- e))%Z
  | _ => false
  end.

(** [bool(v)]. *)
Definition truthy (v : pyval) : bool :=
  match v with
  | VNone => false
  | VBool b => b
  | VInt z => negb (z =? 0)%Z
  | VFloat f => negb (float_is_zero f)
  | VStr s => negb (String.eqb s EmptyString)
  | VList l => match l with [] => false | _ :: _ => true end
  | VDict d => match d with [] => false | _ :: _ => true end
  end.

(** [a or b]. *)
Definition py_or (a b : pyval) : pyval := if truthy a then a else b.

Definition is_str (v : pyval) : bool :=
  match v with VStr _ => true | _ => false end.

Definition is_dict (v : pyval) : bool :=
  match v with VDict _ => true | _ => false end.

(** [v == s] for a string literal [s]. *)
Definition eq_str (v : pyval) (s : string) : bool :=
  match v with VStr t => String.eqb t s | _ => false end.

(** [v == True]: Python compares [bool], [int] and [float] by value. *)
Definition eq_True (v : pyval) : bool :=
  match v with
  | VBool b => b
  | VInt z => (z =? 1)%Z
  | VFloat f => float_is_one f
  | _ => false
  end.

(** [v in l] for a list [l] of string literals. *)
Definition in_strs (v : pyval) (l : list string) : bool :=
  existsb (eq_str v) l.

(* ----------------------------------------------------------------- *)
(** *** Dictionary operations *)

(** [d.get(k)], [None] of the option type when the key is absent. *)
Fixpoint dget (d : dict) (k : string) : option pyval :=
  match d with
  | [] => None
  | (k', v) :: d' => if String.eqb k' k then Some v else dget d' k
  end.

(** [d.get(k)] as a Python value. *)
Definition py_get (d : dict) (k : string) : pyval :=
  match dget d k with Some v => v | None => VNone end.

(** [k in d]. *)
Definition dmem (k : string) (d : dict) : bool :=
  match dget d k with Some _ => true | None => false end.

(** [d[k] = v]: an existing key keeps its position, a new one goes last. *)
Fixpoint dset (d : dict) (k : string) (v : pyval) : dict :=
  match d with
  | [] => [(k, v)]
  | (k', v') :: d' =>
      if String.eqb k' k then (k, v) :: d' else (k', v') :: dset d' k v
  end.

(** The dictionary left by [d.pop(k)]. *)
Definition dremove (d : dict) (k : string) : dict :=
  filter (fun kv => negb (String.eqb (fst kv) k)) d.

(** [list(d.keys())]. *)
Definition keys (d : dict) : list string := map fst d.

(** [l[-n:]] and the characters of a string as one-character strings. *)
Definition lastn {A : Type} (n : nat) (l : list A) : list A :=
  skipn (length l - n) l.

Fixpoint chars (s : string) : list pyval :=
  match s with
  | EmptyString => []
  | String c s' => VStr (String c EmptyString) :: chars s'
  end.

(* ================================================================= *)
(** ** The environment of the handler *)

(** The outcome of [json.loads]: a value, a [JSONDecodeError], or another
    exception (the interpreter's recursion and integer-size limits). *)
Inductive load_result : Type :=
| Parsed (obj : pyval)
| DecodeError
| LoadRaised (msg : string).

(** The outcome of a call that may raise: the chat service and the Canvas
    client.  [msg] is [str(e)] of the exception. *)
Inductive call_result (A : Type) : Type :=
| Returned (result : A)
| Raised (msg : string).
Arguments Returned {A} result.
Arguments Raised {A} msg.

(** An entry of [st.session_state.messages]. *)
Record message : Type := { role : string; content : string }.

(** An entry of [st.session_state.available_tools]: the tool's name and the
    [properties] of its parameter schema, each with its declared [type] when
    it has one.  The tool's [function] is the Canvas client method of the
    same name, reached through [executor]. *)
Record tool : Type := {
  name : string;
  properties : list (string * option string)
}.

(** A call made to the Canvas client: method name and keyword arguments. *)
Definition invocation : Type := (string * dict)%type.

Record env : Type := {
  (** [int(s)] and [float(s)] on a string, [None] for [ValueError]. *)
  py_int : string -> option Z;
  py_float : string -> option pyfloat;
  (** [str(v)] of a value that is not a string. *)
  py_str : pyval -> string;
  json_loads : string -> load_result;
  (** [json.dumps(v, indent=2)]. *)
  json_dumps : pyval -> string;
  (** [str(e)] of the exception raised when the operation [op] does not
      apply to [v] ([v.keys()] on a value that is no dictionary, [v[:20]]
      on a value that cannot be sliced). *)
  exception_text : pyval -> string -> string;
  (** [groq_service.chat(chat_messages, available_tools)]. *)
  chat : list message -> list tool -> call_result string;
  (** A Canvas client method applied to keyword arguments; the first
      argument is the log of the earlier calls, which stands for the state
      of the remote service. *)
  executor : list invocation -> string -> dict -> call_result pyval
}.

(** A value interpolated in an f-string. *)
Definition fmt (E : env) (v : pyval) : string :=
  match v with
  | VStr s => s
  | _ => py_str E v
  end.

(* ================================================================= *)
(** ** [convert_argument_types] *)

(** [tool_props[key].get('type', 'string')] for a declared key. *)
Definition declared_type (schema : option string) : string :=
  match schema with
  | Some ty => ty
  | None => "string"
  end.

Fixpoint lookup_prop (tool_props : list (string * option string)) (key : string)
  : option (option string) :=
  match tool_props with
  | [] => None
  | (k, schema) :: rest =>
      if String.eqb k key then Some schema else lookup_prop rest key
  end.

Definition convert_value (E : env) (expected_type : string) (value : pyval) : pyval :=
  match value with
  | VStr s =>
      if String.eqb expected_type "integer" then
        match py_int E s with
        | Some z => VInt z
        | None => value
        end
      else if String.eqb expected_type "boolean" then
        VBool (mem (lower s) ["true"; "1"; "yes"])
      else if String.eqb expected_type "number" then
        match py_float E s with
        | Some f => VFloat f
        | None => value
        end
      else value
  | _ =>
      if String.eqb expected_type "boolean" then VBool (truthy value) else value
  end.

Definition convert_entry (E : env) (tool_props : list (string * option string))
    (kv : string * pyval) : string * pyval :=
  let (key, value) := kv in
  match lookup_prop tool_props key with
  | None => (key, value)
  | Some schema => (key, convert_value E (declared_type schema) value)
  end.

Definition convert_argument_types (E : env) (arguments : dict)
    (tool_props : list (string * option string)) : dict :=
  map (convert_entry E tool_props) arguments.

(* ================================================================= *)
(** ** [detect_placeholders] *)

Definition placeholder_patterns : list string :=
  ["<YOUR_"; "<HTML_"; "<INSERT_"; "<COURSE_"; "<PAGE_"; "<MODULE_"].

(** [any(pat in value.upper() for pat in placeholder_patterns)]. *)
Definition has_marker (value : string) : bool :=
  existsb (fun pat => contains pat (upper value)) placeholder_patterns.

(** The single-tag test on [value.strip()]. *)
Definition bare_tag (value : string) : bool :=
  let stripped := strip value in
  startswith "<" stripped && endswith ">" stripped
  && negb (contains "</" stripped).

(** [detect_placeholders(arguments)]: [Some msg] when it raises
    [ValueError(msg)], [None] when it returns. *)
Fixpoint detect_placeholders (arguments : dict) : option string :=
  match arguments with
  | [] => None
  | (key, value) :: rest =>
      match value with
      | VStr s =>
          if has_marker s then
            Some ("Invalid placeholder value for '" ++ key ++ "': " ++ s
                  ++ ". Please provide an actual value.")
          else if bare_tag s then
            Some ("Placeholder detected in '" ++ key ++ "': " ++ s)
          else detect_placeholders rest
      | _ => detect_placeholders rest
      end
  end.

(* ================================================================= *)
(** ** Argument normalisation in [render_chat] *)

(** Auto-injection of the sidebar's course. *)
Definition inject_course_id (current_course_id : pyval)
    (expected_params : list string) (arguments : dict) : dict :=
  if truthy current_course_id && mem "course_id" expected_params then
    if negb (truthy (py_get arguments "course_id")) then
      dset arguments "course_id" current_course_id
    else arguments
  else arguments.

Definition param_aliases : list (string * string) :=
  [("content", "body"); ("subject", "title");
   ("body", "message"); ("is_published", "published")].

(** One iteration of the loop over the alias table:
    [arguments[target] = arguments.pop(incoming)] under its guard. *)
Definition alias_step (expected_params : list string) (arguments : dict)
    (alias : string * string) : dict :=
  let (incoming, target) := alias in
  match dget arguments incoming with
  | Some v =>
      if negb (mem incoming expected_params) && mem target expected_params
      then dset (dremove arguments incoming) target v
      else arguments
  | None => arguments
  end.

Definition apply_aliases (table : list (string * string))
    (expected_params : list string) (arguments : dict) : dict :=
  fold_left (alias_step expected_params) table arguments.

(** [include_items_value in [True, 'true', 'True', '1']]. *)
Definition include_items_requested (v : pyval) : bool :=
  eq_True v || in_strs v ["true"; "True"; "1"].

(** The special handling of [include_items]. *)
Definition map_include_items (arguments : dict) : dict :=
  match dget arguments "include_items" with
  | Some include_items_value =>
      let arguments' := dremove arguments "include_items" in
      if include_items_requested include_items_value
      then dset arguments' "include" (VList [VStr "items"])
      else arguments'
  | None => arguments
  end.

(** [{k: v for k, v in arguments.items() if k in expected_params}]. *)
Definition filter_args (expected_params : list string) (arguments : dict) : dict :=
  filter (fun kv => mem (fst kv) expected_params) arguments.

(** Lines 292-321 of [render_chat], for an alias table [table]: injection,
    aliases, [include_items], type conversion, filtering. *)
Definition normalize_with (table : list (string * string)) (E : env)
    (current_course_id : pyval) (props : list (string * option string))
    (arguments : dict) : dict :=
  let expected_params := map fst props in
  let a1 := inject_course_id current_course_id expected_params arguments in
  let a2 := apply_aliases table expected_params a1 in
  let a3 := map_include_items a2 in
  let a4 := convert_argument_types E a3 props in
  filter_args expected_params a4.

Definition normalize : env -> pyval -> list (string * option string) -> dict -> dict :=
  normalize_with param_aliases.

(* ================================================================= *)
(** ** Extraction of the tool call from the model's reply *)

(** The value stored in [st.session_state.pending_confirmation]. *)
Record pending : Type := {
  function_name : pyval;
  arguments : pyval
}.

(** [[i for i, ch in enumerate(response_text) if ch == "{"]], counting
    from [i]. *)
Fixpoint brace_indices (i : nat) (s : string) : list nat :=
  match s with
  | EmptyString => []
  | String c s' =>
      if Ascii.eqb c "{" then i :: brace_indices (S i) s'
      else brace_indices (S i) s'
  end.

(** [response_text[i] == c]. *)
Definition char_at (response_text : string) (i : nat) (c : ascii) : bool :=
  match String.get i response_text with
  | Some a => Ascii.eqb a c
  | None => false
  end.

(** [response_text[start_idx:end_idx]]. *)
Definition slice (response_text : string) (start_idx end_idx : nat) : string :=
  substring start_idx (end_idx - start_idx) response_text.

(** [isinstance(obj, dict) and "tool" in obj and "parameters" in obj]. *)
Definition is_tool_call (obj : pyval) : bool :=
  match obj with
  | VDict d => dmem "tool" d && dmem "parameters" d
  | _ => false
  end.

(** The state of the scan: the object found, nothing yet, or an exception
    other than [JSONDecodeError], which leaves both loops. *)
Inductive scan : Type :=
| Found (obj : dict)
| NotFound
| Aborted (msg : string).

(** The inner loop, [for end_idx in range(text_len, start_idx, -1)], with
    [end_idx = start_idx + k]. *)
Fixpoint scan_ends (E : env) (response_text : string) (start_idx k : nat) : scan :=
  match k with
  | 0 => NotFound
  | S k' =>
      let end_idx := start_idx + k in
      if char_at response_text (end_idx - 1) "}" then
        match json_loads E (slice response_text start_idx end_idx) with
        | Parsed (VDict d) =>
            if is_tool_call (VDict d) then Found d
            else scan_ends E response_text start_idx k'
        | Parsed _ => scan_ends E response_text start_idx k'
        | DecodeError => scan_ends E response_text start_idx k'
        | LoadRaised msg => Aborted msg
        end
      else scan_ends E response_text start_idx k'
  end.

(** The outer loop over the indices of the opening braces. *)
Fixpoint scan_starts (E : env) (response_text : string) (starts : list nat) : scan :=
  match starts with
  | [] => NotFound
  | start_idx :: rest =>
      match scan_ends E response_text start_idx
              (String.length response_text - start_idx) with
      | Found obj => Found obj
      | Aborted msg => Aborted msg
      | NotFound => scan_starts E response_text rest
      end
  end.

(** Lines 431-461: the pending confirmation parsed from the reply, if any. *)
Definition extract_tool_call (E : env) (response_text : string) : option pending :=
  if contains "{" response_text && contains "tool" response_text then
    match scan_starts E response_text (brace_indices 0 response_text) with
    | Found tool_call =>
        Some {| function_name := py_get tool_call "tool";
                arguments := py_get tool_call "parameters" |}
    | NotFound => None
    | Aborted _ => None
    end
  else None.

(* ================================================================= *)
(** ** The chat handler *)

Record session : Type := {
  messages : list message;
  pending_confirmation : option pending;
  current_course_id : pyval;
  available_tools : list tool;
  invocations : list invocation
}.

Definition user (text : string) : message :=
  {| role := "user"; content := text |}.

Definition assistant (text : string) : message :=
  {| role := "assistant"; content := text |}.

(** The session after the handler appended [new] to the history, made the
    calls [calls] and left [p] as pending confirmation. *)
Definition update (st : session) (new : list message) (calls : list invocation)
    (p : option pending) : session :=
  {| messages := (messages st ++ new)%list;
     pending_confirmation := p;
     current_course_id := current_course_id st;
     available_tools := available_tools st;
     invocations := (invocations st ++ calls)%list |}.

(** One line of a rendered list (lines 350-355 and 480-485). *)
Definition item_line (E : env) (item : pyval) : string :=
  match item with
  | VDict d =>
      let name := py_or (py_get d "name") (py_or (py_get d "title")
                   (py_or (py_get d "short_name") (VStr "Unnamed"))) in
      let cid := py_or (py_get d "id") (py_or (py_get d "course_id")
                   (py_get d "uuid")) in
      "- " ++ fmt E name ++ " (ID: " ++ fmt E cid ++ ")"
  | _ => "- " ++ fmt E item
  end.

Definition more (n : nat) : string :=
  if (20 <? n)%nat then nl ++ "…" else EmptyString.

(** Lines 343-359: the answer shown for the result of a confirmed call. *)
Definition render_result (E : env) (result : pyval) : string :=
  match result with
  | VList [] =>
      "No results returned. If you expected courses, check enrollment type/state (e.g., try enrollment_type='teacher', enrollment_state='active')."
  | VList l =>
      "✅ Operation completed successfully!" ++ nl ++ nl
      ++ join nl (map (item_line E) (firstn 20 l)) ++ more (List.length l)
  | _ => "✅ Operation completed successfully!" ++ nl ++ nl ++ fmt E result
  end.

Definition error_text (msg : string) : string := "❌ Error: " ++ msg.

Definition valid_events : list string :=
  ["offer"; "claim"; "conclude"; "delete"; "undelete"].

(** Lines 332-334: the test on the [event] of [update_course]. *)
Definition invalid_event (function_name : pyval) (filtered_args : dict) : bool :=
  eq_str function_name "update_course"
  && dmem "event" filtered_args
  && negb (in_strs (py_get filtered_args "event") valid_events).

(** Lines 283-360: the body of the loop for the tool that matches; the
    answer and the calls made to the Canvas client. *)
Definition run_tool (E : env) (st : session) (t : tool) (p : pending)
  : string * list invocation :=
  match arguments p with
  | VDict args =>
      let props := properties t in
      let filtered_args := normalize E (current_course_id st) props args in
      match detect_placeholders filtered_args with
      | Some msg => (error_text msg, [])
      | None =>
          if invalid_event (function_name p) filtered_args then
            ("❌ Invalid event '" ++ fmt E (py_get filtered_args "event")
             ++ "' for update_course. Valid events: " ++ join ", " valid_events,
             [])
          else
            match executor E (invocations st) (name t) filtered_args with
            | Returned result =>
                (render_result E result, [(name t, filtered_args)])
            | Raised msg => (error_text msg, [(name t, filtered_args)])
            end
      end
  | other => (error_text (exception_text E other "keys"), [])
  end.

(** Lines 252-382: the operator confirmed the pending call [p].  In the
    first branch [st.rerun()] ends the run of the script after the pending
    call was cleared. *)
Definition confirm (E : env) (st : session) (prompt : string) (p : pending)
  : session :=
  let tool_names := map name (available_tools st) in
  if negb (existsb (eq_str (function_name p)) tool_names) then
    update st
      [user prompt;
       assistant ("❌ Invalid tool '" ++ fmt E (function_name p)
                  ++ "'. Available tools: "
                  ++ join ", " (firstn 10 tool_names) ++ "...")]
      [] None
  else
    match find (fun t => eq_str (function_name p) (name t)) (available_tools st) with
    | Some t =>
        let (response_text, calls) := run_tool E st t p in
        update st [user prompt; assistant response_text] calls None
    | None =>
        update st
          [user prompt;
           assistant ("❌ Tool '" ++ fmt E (function_name p) ++ "' not found.")]
          [] None
    end.

(** Lines 384-402: the operator cancelled. *)
Definition cancel (st : session) (prompt : string) : session :=
  update st
    [user prompt; assistant "✅ Operation cancelled. No changes were made."]
    [] None.

Definition action_phrases : list string :=
  ["has been"; "successfully"; "created"; "updated"; "added"; "deleted";
   "i have"; "i will"; "i've"].

(** Lines 463-468: the note added when the reply claims an action. *)
Definition hallucination_note (tool_call_found : bool) (prompt response_text : string)
  : string :=
  if negb tool_call_found
     && existsb (fun phrase => contains phrase (lower response_text)) action_phrases
  then
    if contains "course" (lower prompt) || contains "page" (lower prompt)
       || contains "module" (lower prompt) || contains "announcement" (lower prompt)
    then
      response_text ++ nl ++ nl
      ++ "⚠️ Note: No Canvas action was executed because no tool call was issued. Please provide a clear request so I can call the correct tool."
    else response_text
  else response_text.

Definition list_courses_call : invocation :=
  ("list_courses",
   [("enrollment_type", VStr "teacher"); ("enrollment_state", VStr "active")]).

(** [result[:20]] and [len(result)] for the values that can be sliced. *)
Definition sliceable (result : pyval) : option (list pyval * nat) :=
  match result with
  | VList l => Some (firstn 20 l, List.length l)
  | VStr s => Some (firstn 20 (chars s), String.length s)
  | _ => None
  end.

(** Lines 472-491: the answer built from the outcome of [list_courses]. *)
Definition courses_text (E : env) (outcome : call_result pyval) : string :=
  match outcome with
  | Returned result =>
      if truthy result then
        match sliceable result with
        | Some (items, len) =>
            "✅ Courses:" ++ nl ++ nl
            ++ join nl (map (item_line E) items) ++ more len
        | None =>
            "❌ Error listing courses: " ++ exception_text E result "[:20]"
        end
      else
        "No courses found for your teacher enrollments. Try changing enrollment_type/state."
  | Raised msg => "❌ Error listing courses: " ++ msg
  end.

(** Lines 408-509: a message received while nothing is pending. *)
Definition process_message (E : env) (st : session) (prompt : string) : session :=
  let history := (messages st ++ [user prompt])%list in
  match chat E (lastn 10 history) (available_tools st) with
  | Raised msg =>
      update st
        [user prompt;
         assistant (error_text msg ++ nl ++ nl
                    ++ "Please check your API credentials and try again.")]
        [] (pending_confirmation st)
  | Returned reply =>
      let proposal := extract_tool_call E reply in
      let response_text :=
        match proposal with
        | Some p =>
            "I want to call '" ++ fmt E (function_name p)
            ++ "' with these parameters:" ++ nl ++ nl
            ++ json_dumps E (arguments p) ++ nl ++ nl
            ++ "Do you want to proceed? (yes/no)"
        | None => reply
        end in
      let tool_call_found :=
        match proposal with Some _ => true | None => false end in
      let response_text := hallucination_note tool_call_found prompt response_text in
      match proposal with
      | Some p => update st [user prompt; assistant response_text] [] (Some p)
      | None =>
          if contains "list" (lower prompt) && contains "course" (lower prompt)
          then
            let outcome :=
              executor E (invocations st) (fst list_courses_call)
                       (snd list_courses_call) in
            update st [user prompt; assistant (courses_text E outcome)]
                   [list_courses_call] (pending_confirmation st)
          else
            update st [user prompt; assistant response_text] []
                   (pending_confirmation st)
      end
  end.

Definition affirmations : list string := ["yes"; "y"; "confirm"; "ok"].
Definition rejections : list string := ["no"; "n"; "cancel"].

(** The body of [render_chat] for one submitted [prompt]. *)
Definition render_chat (E : env) (st : session) (prompt : string) : session :=
  if String.eqb prompt EmptyString then st
  else
    match pending_confirmation st with
    | Some p =>
        if mem (lower prompt) affirmations then confirm E st prompt p
        else if mem (lower prompt) rejections then cancel st prompt
        else st
    | None => process_message E st prompt
    end.

(** The handler run on a sequence of prompts. *)
Definition run (E : env) (st : session) (prompts : list string) : session :=
  fold_left (render_chat E) prompts st.

(* ================================================================= *)
(** ** A reference environment

    Decoders written after the Python library, used to run the handler on
    concrete texts: [loads] follows [json.loads] (the scanner of
    [json.decoder], strict mode), [int_of_str] and [float_of_str] follow
    [int] and [float] on ASCII decimal text.  The interpreter's recursion and
    integer-size limits are not modelled, so [loads] never returns
    [LoadRaised]; a float keeps its decimal digits, without the rounding
    to binary64 and without the overflow to infinity.  The decoders serve
    the examples only: every general statement below is about an arbitrary
    environment. *)

Definition is_digit (c : ascii) : bool :=
  let n := nat_of_ascii c in ((48 <=? n) && (n <=? 57))%nat.

Definition digit_value (c : ascii) : Z := Z.of_nat (nat_of_ascii c - 48).

Definition digits_value (ds : list ascii) : Z :=
  fold_left (fun acc c => (10 * acc + digit_value c)%Z) ds 0%Z.

(** The longest prefix of digits and what follows it. *)
Fixpoint span_digits (s : string) : list ascii * string :=
  match s with
  | String c s' =>
      if is_digit c then let (ds, r) := span_digits s' in (c :: ds, r)
      else ([], s)
  | EmptyString => ([], s)
  end.

(** [s] without its prefix [p], if it starts with it. *)
Fixpoint strip_prefix (p s : string) : option string :=
  match p, s with
  | EmptyString, _ => Some s
  | String a p', String b s' =>
      if Ascii.eqb a b then strip_prefix p' s' else None
  | String _ _, EmptyString => None
  end.

(** The fraction (a point and digits) and the exponent (e or E, an optional
    sign and digits) of a number. *)
Definition scan_fraction (s : string) : option (list ascii * string) :=
  match s with
  | String "." s' =>
      match span_digits s' with
      | ([], _) => None
      | (ds, r) => Some (ds, r)
      end
  | _ => None
  end.

Definition scan_exponent (s : string) : option (Z * string) :=
  match s with
  | String c s' =>
      if Ascii.eqb c "e" || Ascii.eqb c "E" then
        match s' with
        | String "-" s'' =>
            match span_digits s'' with
            | ([], _) => None
            | (ds, r) => Some ((- digits_value ds)%Z, r)
            end
        | String "+" s'' =>
            match span_digits s'' with
            | ([], _) => None
            | (ds, r) => Some (digits_value ds, r)
            end
        | _ =>
            match span_digits s' with
            | ([], _) => None
            | (ds, r) => Some (digits_value ds, r)
            end
        end
      else None
  | EmptyString => None
  end.

(** The number made of the digits [int_ds], an optional fraction and an
    optional exponent. *)
Definition make_number (negative : bool) (int_ds : list ascii) (s : string)
  : pyval * string :=
  let sign := if negative then (-1)%Z else 1%Z in
  match scan_fraction s with
  | Some (frac_ds, r) =>
      let m := (sign * digits_value (int_ds ++ frac_ds)%list)%Z in
      let shift := Z.of_nat (List.length frac_ds) in
      match scan_exponent r with
      | Some (e, r') => (VFloat (FDec m (e - shift)), r')
      | None => (VFloat (FDec m (- shift)), r)
      end
  | None =>
      match scan_exponent s with
      | Some (e, r') => (VFloat (FDec (sign * digits_value int_ds) e), r')
      | None => (VInt (sign * digits_value int_ds), s)
      end
  end.

(** [NUMBER_RE]: an optional minus sign, then a zero or a digit string
    without leading zero, then an optional fraction and exponent. *)
Definition scan_number (s : string) : option (pyval * string) :=
  let (negative, body) :=
    match s with
    | String "-" s' => (true, s')
    | _ => (false, s)
    end in
  match body with
  | String "0" r => Some (make_number negative ["0"%char] r)
  | String c _ =>
      if is_digit c then
        let (ds, r) := span_digits body in Some (make_number negative ds r)
      else None
  | EmptyString => None
  end.

Definition hex_value (c : ascii) : option nat :=
  let n := nat_of_ascii c in
  if ((48 <=? n) && (n <=? 57))%nat then Some (n - 48)
  else if ((97 <=? n) && (n <=? 102))%nat then Some (n - 87)
  else if ((65 <=? n) && (n <=? 70))%nat then Some (n - 55)
  else None.

(** The UTF-8 bytes of a code point of the basic plane. *)
Definition utf8 (cp : nat) : string :=
  if (cp <? 128)%nat then String (ascii_of_nat cp) EmptyString
  else if (cp <? 2048)%nat then
    String (ascii_of_nat (192 + cp / 64))
      (String (ascii_of_nat (128 + cp mod 64)) EmptyString)
  else
    String (ascii_of_nat (224 + cp / 4096))
      (String (ascii_of_nat (128 + (cp / 64) mod 64))
         (String (ascii_of_nat (128 + cp mod 64)) EmptyString)).

Definition simple_escape (c : ascii) : option ascii :=
  if Ascii.eqb c "034" then Some "034"%char
  else if Ascii.eqb c "\" then Some "\"%char
  else if Ascii.eqb c "/" then Some "/"%char
  else if Ascii.eqb c "b" then Some "008"%char
  else if Ascii.eqb c "f" then Some "012"%char
  else if Ascii.eqb c "n" then Some "010"%char
  else if Ascii.eqb c "r" then Some "013"%char
  else if Ascii.eqb c "t" then Some "009"%char
  else None.

(** [scanstring] in strict mode, from the character after the opening
    quote: the decoded string and the text after the closing quote. *)
Fixpoint scan_string (s : string) : option (string * string) :=
  match s with
  | EmptyString => None
  | String c s' =>
      if Ascii.eqb c "034" then Some (EmptyString, s')
      else if Ascii.eqb c "\" then
        match s' with
        | String "u" (String h1 (String h2 (String h3 (String h4 r)))) =>
            match hex_value h1, hex_value h2, hex_value h3, hex_value h4 with
            | Some a, Some b, Some c', Some d =>
                match scan_string r with
                | Some (str, r') =>
                    Some (utf8 (((a * 16 + b) * 16 + c') * 16 + d) ++ str, r')
                | None => None
                end
            | _, _, _, _ => None
            end
        | String e r =>
            match simple_escape e with
            | Some x =>
                match scan_string r with
                | Some (str, r') => Some (String x str, r')
                | None => None
                end
            | None => None
            end
        | EmptyString => None
        end
      else if (nat_of_ascii c <? 32)%nat then None
      else
        match scan_string s' with
        | Some (str, r) => Some (String c str, r)
        | None => None
        end
  end.

Definition json_ws (c : ascii) : bool :=
  Ascii.eqb c " " || Ascii.eqb c "009" || Ascii.eqb c "010" || Ascii.eqb c "013".

Fixpoint skip_ws (s : string) : string :=
  match s with
  | String c s' => if json_ws c then skip_ws s' else s
  | EmptyString => s
  end.

(** [scan_once], [JSONObject] and [JSONArray]. *)
Fixpoint scan_once (fuel : nat) (s : string) : option (pyval * string) :=
  match fuel with
  | 0 => None
  | S fuel' =>
      match s with
      | EmptyString => None
      | String c s' =>
          if Ascii.eqb c "034" then
            match scan_string s' with
            | Some (str, r) => Some (VStr str, r)
            | None => None
            end
          else if Ascii.eqb c "{" then
            match skip_ws s' with
            | String "}" r => Some (VDict [], r)
            | r => scan_members fuel' [] r
            end
          else if Ascii.eqb c "[" then
            match skip_ws s' with
            | String "]" r => Some (VList [], r)
            | r => scan_elements fuel' [] r
            end
          else
            match strip_prefix "null" s, strip_prefix "true" s,
                  strip_prefix "false" s with
            | Some r, _, _ => Some (VNone, r)
            | _, Some r, _ => Some (VBool true, r)
            | _, _, Some r => Some (VBool false, r)
            | None, None, None =>
                match scan_number s with
                | Some res => Some res
                | None =>
                    match strip_prefix "NaN" s, strip_prefix "Infinity" s,
                          strip_prefix "-Infinity" s with
                    | Some r, _, _ => Some (VFloat FNaN, r)
                    | _, Some r, _ => Some (VFloat (FInf false), r)
                    | _, _, Some r => Some (VFloat (FInf true), r)
                    | None, None, None => None
                    end
                end
            end
      end
  end

with scan_members (fuel : nat) (acc : dict) (s : string) : option (pyval * string) :=
  match fuel with
  | 0 => None
  | S fuel' =>
      match s with
      | String "034" s1 =>
          match scan_string s1 with
          | Some (key, r) =>
              match skip_ws r with
              | String ":" r2 =>
                  match scan_once fuel' (skip_ws r2) with
                  | Some (value, r3) =>
                      let acc' := dset acc key value in
                      match skip_ws r3 with
                      | String "}" r4 => Some (VDict acc', r4)
                      | String "," r4 => scan_members fuel' acc' (skip_ws r4)
                      | _ => None
                      end
                  | None => None
                  end
              | _ => None
              end
          | None => None
          end
      | _ => None
      end
  end

with scan_elements (fuel : nat) (acc : list pyval) (s : string) : option (pyval * string) :=
  match fuel with
  | 0 => None
  | S fuel' =>
      match scan_once fuel' s with
      | Some (value, r) =>
          let acc' := (acc ++ [value])%list in
          match skip_ws r with
          | String "]" r2 => Some (VList acc', r2)
          | String "," r2 => scan_elements fuel' acc' (skip_ws r2)
          | _ => None
          end
      | None => None
      end
  end.

(** [json.loads(s)]. *)
Definition loads (s : string) : load_result :=
  match scan_once (String.length s + 2) (skip_ws s) with
  | Some (obj, r) =>
      match skip_ws r with
      | EmptyString => Parsed obj
      | _ => DecodeError
      end
  | None => DecodeError
  end.

(** The white space that [int] and [float] skip around ASCII text: the
    characters 9 to 13 and the space, and not the separators 28 to 31 that
    [str.strip] removes. *)
Definition is_c_space (c : ascii) : bool :=
  let n := nat_of_ascii c in
  (((9 <=? n) && (n <=? 13)) || (n =? 32))%nat.

Fixpoint lstrip_c (s : string) : string :=
  match s with
  | EmptyString => EmptyString
  | String c s' => if is_c_space c then lstrip_c s' else s
  end.

Fixpoint rstrip_c (s : string) : string :=
  match s with
  | EmptyString => EmptyString
  | String c s' =>
      match rstrip_c s' with
      | EmptyString => if is_c_space c then EmptyString else String c EmptyString
      | r => String c r
      end
  end.

(** The digits of [int(s)] after the sign: single underscores may separate
    digits. *)
Fixpoint int_digits (after_digit : bool) (acc : Z) (s : string) : option Z :=
  match s with
  | EmptyString => if after_digit then Some acc else None
  | String c s' =>
      if is_digit c then int_digits true (10 * acc + digit_value c)%Z s'
      else if Ascii.eqb c "_" && after_digit then
        match s' with
        | String d _ => if is_digit d then int_digits false acc s' else None
        | EmptyString => None
        end
      else None
  end.

(** [int(s)] for a string. *)
Definition int_of_str (s : string) : option Z :=
  match rstrip_c (lstrip_c s) with
  | String "-" r => option_map Z.opp (int_digits false 0%Z r)
  | String "+" r => int_digits false 0%Z r
  | t => int_digits false 0%Z t
  end.

(** The decimal forms of [float(s)] after the sign; digit separators are not
    modelled. *)
Definition float_body (negative : bool) (s : string) : option pyfloat :=
  let sign := if negative then (-1)%Z else 1%Z in
  if mem (lower s) ["inf"; "infinity"] then Some (FInf negative)
  else if String.eqb (lower s) "nan" then Some FNaN
  else
    let (int_ds, r) := span_digits s in
    let (frac_ds, r') :=
      match r with
      | String "." r1 => span_digits r1
      | _ => ([], r)
      end in
    match (int_ds ++ frac_ds)%list with
    | [] => None
    | ds =>
        let m := (sign * digits_value ds)%Z in
        let shift := Z.of_nat (List.length frac_ds) in
        match r' with
        | EmptyString => Some (FDec m (- shift))
        | _ =>
            match scan_exponent r' with
            | Some (e, EmptyString) => Some (FDec m (e - shift))
            | _ => None
            end
        end
    end.

(** [float(s)] for a string. *)
Definition float_of_str (s : string) : option pyfloat :=
  match rstrip_c (lstrip_c s) with
  | String "-" r => float_body true r
  | String "+" r => float_body false r
  | t => float_body false t
  end.

(** [str(v)] for scalars; a container is shown by a mark. *)
Definition str_of_val (v : pyval) : string :=
  match v with
  | VNone => "None"
  | VBool true => "True"
  | VBool false => "False"
  | VInt z => NilZero.string_of_int (Z.to_int z)
  | VFloat _ => "<float>"
  | VStr s => s
  | VList _ => "[...]"
  | VDict _ => "{...}"
  end.

(** The environment in which the chat service answers [reply] and every
    Canvas client call has the outcome [outcome]. *)
Definition scripted_env (reply : call_result string) (outcome : call_result pyval)
  : env :=
  {| py_int := int_of_str;
     py_float := float_of_str;
     py_str := str_of_val;
     json_loads := loads;
     json_dumps := str_of_val;
     exception_text := fun v op => "cannot apply " ++ op ++ " to " ++ str_of_val v;
     chat := fun _ _ => reply;
     executor := fun _ _ _ => outcome |}.

(** A catalog with four of the tools of [tools/]. *)
Definition create_page_tool : tool :=
  {| name := "create_page";
     properties :=
       [("course_id", Some "integer"); ("title", Some "string");
        ("body", Some "string"); ("published", Some "boolean");
        ("front_page", Some "boolean"); ("editing_roles", Some "string")] |}.

Definition list_modules_tool : tool :=
  {| name := "list_modules";
     properties :=
       [("course_id", Some "integer"); ("include_items", Some "boolean")] |}.

Definition get_module_tool : tool :=
  {| name := "get_module";
     properties := [("course_id", Some "integer"); ("module_id", Some "integer")] |}.

Definition create_module_with_items_tool : tool :=
  {| name := "create_module_with_items";
     properties :=
       [("course_id", Some "integer"); ("name", Some "string");
        ("position", Some "integer"); ("unlock_at", Some "string");
        ("require_sequential_progress", Some "boolean");
        ("items", Some "array")] |}.

Definition catalog : list tool :=
  [create_page_tool; list_modules_tool; get_module_tool;
   create_module_with_items_tool].

(** The session as [initialize_session] leaves it, with the sidebar's course
    [course]. *)
Definition initial_session (course : pyval) : session :=
  {| messages := [];
     pending_confirmation := None;
     current_course_id := course;
     available_tools := catalog;
     invocations := [] |}.

(** The reply of the specification's example. *)
Definition welcome_reply : string :=
  "Sure! {" ++ q "tool" ++ ": " ++ q "create_page" ++ ", " ++ q "parameters"
  ++ ": {" ++ q "course_id" ++ ": 5, " ++ q "title" ++ ": " ++ q "Welcome"
  ++ "}} Let me know.".

(* ================================================================= *)
(** ** Notions used in the statements *)

(** The tool and the arguments with which a confirmed pending call reaches
    the Canvas client: the tool is in the catalog, the arguments are a
    dictionary, and the normalised arguments pass [detect_placeholders] and
    the [event] test. *)
Definition accepted_call (E : env) (st : session) (p : pending)
  : option (tool * dict) :=
  match find (fun t => eq_str (function_name p) (name t)) (available_tools st) with
  | Some t =>
      match arguments p with
      | VDict args =>
          let filtered_args := normalize E (current_course_id st) (properties t) args in
          match detect_placeholders filtered_args with
          | Some _ => None
          | None =>
              if invalid_event (function_name p) filtered_args then None
              else Some (t, filtered_args)
          end
      | _ => None
      end
  | None => None
  end.

(** The calls a confirmation of [p] makes. *)
Definition calls_of (E : env) (st : session) (p : pending) : list invocation :=
  match accepted_call E st p with
  | Some (t, filtered_args) => [(name t, filtered_args)]
  | None => []
  end.

(** [start_idx] and [end_idx] delimit a substring the scan tries: it opens
    with a brace and closes with one. *)
Definition candidate (text : string) (start_idx end_idx : nat) : Prop :=
  char_at text start_idx "{" = true
  /\ start_idx < end_idx <= String.length text
  /\ char_at text (end_idx - 1) "}" = true.

(** The scan tries [(s1, e1)] before [(s2, e2)]: opening braces from left to
    right and, for one opening brace, closing braces from right to left. *)
Definition tried_before (s1 e1 s2 e2 : nat) : Prop :=
  s1 < s2 \/ (s1 = s2 /\ e2 < e1).

(** The substring decodes to the dictionary [d], which has the two keys. *)
Definition accepts (E : env) (snippet : string) (d : dict) : Prop :=
  json_loads E snippet = Parsed (VDict d)
  /\ dmem "tool" d = true /\ dmem "parameters" d = true.

(** The substring does not decode, or decodes to something that is not a
    dictionary with the two keys. *)
Definition rejects (E : env) (snippet : string) : Prop :=
  match json_loads E snippet with
  | Parsed obj => is_tool_call obj = false
  | DecodeError => True
  | LoadRaised _ => False
  end.

Definition pending_of (d : dict) : pending :=
  {| function_name := py_get d "tool"; arguments := py_get d "parameters" |}.

(** Strings of the form [<] [A-Z_]+ [>]. *)
Definition tag_char (c : ascii) : bool := is_upper_letter c || Ascii.eqb c "_".

Fixpoint all_chars (f : ascii -> bool) (s : string) : bool :=
  match s with
  | EmptyString => true
  | String c s' => f c && all_chars f s'
  end.

Definition upper_tag (s : string) : Prop :=
  exists body,
    body <> EmptyString /\ all_chars tag_char body = true
    /\ s = "<" ++ body ++ ">".

(** The second pass of the normaliser would inject the sidebar's course
    into [out]. *)
Definition injects (current_course_id : pyval) (expected_params : list string)
    (out : dict) : bool :=
  truthy current_course_id && mem "course_id" expected_params
  && negb (truthy (py_get out "course_id")).

(** Sessions and scripts used in the examples. *)
Definition awaiting (p : pending) : session :=
  {| messages := [user "please do it"; assistant "Do you want to proceed? (yes/no)"];
     pending_confirmation := Some p;
     current_course_id := VInt 42;
     available_tools := catalog;
     invocations := [] |}.

Definition welcome_call : pending :=
  {| function_name := VStr "create_page";
     arguments := VDict [("course_id", VInt 5); ("title", VStr "Welcome")] |}.

Definition idle_env : env := scripted_env (Returned welcome_reply) (Returned (VList [])).

(** A reply that names no tool of the catalog. *)
Definition unknown_reply : string :=
  "{" ++ q "tool" ++ ": " ++ q "frobnicate" ++ ", " ++ q "parameters" ++ ": {}}".

(** A reply whose title is a placeholder. *)
Definition placeholder_reply : string :=
  "{" ++ q "tool" ++ ": " ++ q "create_page" ++ ", " ++ q "parameters"
  ++ ": {" ++ q "course_id" ++ ": 5, " ++ q "title" ++ ": " ++ q "<TITLE>" ++ "}}".

(** A reply whose [tool] is no string and whose [parameters] are no object. *)
Definition untyped_reply : string :=
  "{" ++ q "tool" ++ ": 1, " ++ q "parameters" ++ ": 2}".

(** A call with an alias and an undeclared key. *)
Definition messy_call : pending :=
  {| function_name := VStr "create_page";
     arguments :=
       VDict [("title", VStr "Welcome"); ("content", VStr "<p>hi</p>");
              ("colour", VStr "red")] |}.

(** A call whose [items] hold placeholder-shaped strings. *)
Definition nested_items : pyval :=
  VList [VDict [("type", VStr "Page"); ("title", VStr "<PAGE_TITLE>");
                ("body", VStr "<COURSE_ID>")];
         VStr "<INSERT_ITEM>"].

Definition nested_call : pending :=
  {| function_name := VStr "create_module_with_items";
     arguments :=
       VDict [("course_id", VInt 5); ("name", VStr "Week 1");
              ("items", nested_items)] |}.

(* ================================================================= *)
(** ** The tool catalog: [get_all_canvas_tools] of [convert_tools.py] *)

(** The [function] entry of a declaration of [tools/]: its [name], when it
    has one, and the [properties] of its [parameters].  The description is
    carried along unchanged and is not part of the model. *)
Record declaration : Type := {
  decl_name : option string;
  decl_properties : list (string * option string)
}.

(** [tool_map[tool_name] = entry]: a name already present keeps its place. *)
Fixpoint tool_map_set (tool_map : list tool) (entry : tool) : list tool :=
  match tool_map with
  | [] => [entry]
  | t :: rest =>
      if String.eqb (name t) (name entry) then entry :: rest
      else t :: tool_map_set rest entry
  end.

(** One iteration of the loop over [all_tools]; [has_method] is
    [hasattr(canvas_client, tool_name)]. *)
Definition register (has_method : string -> bool) (tool_map : list tool)
    (d : declaration) : list tool :=
  match decl_name d with
  | Some tool_name =>
      if negb (String.eqb tool_name EmptyString) && has_method tool_name then
        tool_map_set tool_map
          {| name := tool_name; properties := decl_properties d |}
      else tool_map
  | None => tool_map
  end.

(** [get_all_canvas_tools(canvas_client)], for the declarations [all_tools]
    gathered from the six modules of [tools/]. *)
Definition get_all_canvas_tools (has_method : string -> bool)
    (all_tools : list declaration) : list tool :=
  fold_left (register has_method) all_tools [].

(* ================================================================= *)
(** ** The chat service: [GroqService.chat] of [groq_service.py] *)

(** [chat(messages, available_tools)].  [system_prompt] is
    [_create_system_prompt]; [create] is the completion request, which
    returns the [content] of each of the [choices] or raises. *)
Definition groq_chat (system_prompt : list tool -> string)
    (create : list message -> call_result (list (option string)))
    (messages : list message) (available_tools : list tool) : string :=
  let chat_messages :=
    match available_tools with
    | [] => messages
    | _ :: _ =>
        {| role := "system"; content := system_prompt available_tools |} :: messages
    end in
  let failure (exc : string) :=
    "Error communicating with Groq: " ++ exc ++ nl ++ nl
    ++ "Make sure GROQ_API_KEY is set." in
  match create chat_messages with
  | Returned (Some content :: _) => content
  | Returned (None :: _) => EmptyString
  | Returned [] => failure "list index out of range"
  | Raised exc => failure exc
  end.

(* ================================================================= *)
(** ** The Canvas client: [canvas_client.py] *)

(** [s.lstrip(c)] and [s.rstrip(c)] for a one-character argument. *)
Fixpoint lstrip_char (c : ascii) (s : string) : string :=
  match s with
  | EmptyString => EmptyString
  | String a s' => if Ascii.eqb a c then lstrip_char c s' else s
  end.

Fixpoint rstrip_char (c : ascii) (s : string) : string :=
  match s with
  | EmptyString => EmptyString
  | String a s' =>
      match rstrip_char c s' with
      | EmptyString => if Ascii.eqb a c then EmptyString else String a EmptyString
      | r => String a r
      end
  end.

(** The [url] of [_request] for a client created with [base_url]. *)
Definition request_url (base_url endpoint : string) : string :=
  rstrip_char "/" base_url ++ "/api/v1/" ++ lstrip_char "/" endpoint.

(** What a method hands to [_request]. *)
Record request : Type := {
  verb : string;
  endpoint : string;
  params : dict
}.

(** [list_modules(course_id, include, include_items)]. *)
Definition list_modules (E : env) (course_id include include_items : pyval)
  : request :=
  let params : dict := if truthy include then [("include[]", include)] else [] in
  let params : dict :=
    if truthy include_items then
      match
        match dget params "include[]" with Some v => v | None => VList [] end
      with
      | VList l => dset params "include[]" (VList (l ++ [VStr "items"])%list)
      | other => dset params "include[]" (VList [other; VStr "items"])
      end
    else params in
  {| verb := "GET";
     endpoint := "courses/" ++ fmt E course_id ++ "/modules";
     params := params |}.

(** [list_modules] called with keyword arguments only, as
    [tool['function']] is: the keywords are bound to the parameters of the
    method; an unknown keyword or a missing [course_id] raises
    [TypeError]. *)
Definition call_list_modules (E : env) (kwargs : dict) : call_result request :=
  if forallb (fun k => mem k ["course_id"; "include"; "include_items"]) (keys kwargs)
  then
    match dget kwargs "course_id" with
    | Some course_id =>
        Returned (list_modules E course_id (py_get kwargs "include")
                    (py_get kwargs "include_items"))
    | None => Raised (exception_text E (VDict kwargs) "list_modules")
    end
  else Raised (exception_text E (VDict kwargs) "list_modules").

(* ================================================================= *)
(** ** The HTML helpers: [utils/html_helpers.py] *)

Definition styled_header (text : string) (level : Z) : string :=
  "<h" ++ NilZero.string_of_int (Z.to_int level) ++ ">" ++ text
  ++ "</h" ++ NilZero.string_of_int (Z.to_int level) ++ ">".

Definition styled_paragraph (text : string) (bold italic : bool) : string :=
  let text := if bold then "<strong>" ++ text ++ "</strong>" else text in
  let text := if italic then "<em>" ++ text ++ "</em>" else text in
  "<p>" ++ text ++ "</p>".

Definition styled_list (items : list string) (ordered : bool) : string :=
  let tag := if ordered then "ol" else "ul" in
  let list_items :=
    join EmptyString (map (fun item => "<li>" ++ item ++ "</li>") items) in
  "<" ++ tag ++ ">" ++ list_items ++ "</" ++ tag ++ ">".

Definition alert_colors : list (string * string) :=
  [("info", "#d1ecf1"); ("warning", "#fff3cd");
   ("error", "#f8d7da"); ("success", "#d4edda")].

Fixpoint color_of (colors : list (string * string)) (alert_type : string)
  : option string :=
  match colors with
  | [] => None
  | (k, v) :: rest => if String.eqb k alert_type then Some v else color_of rest alert_type
  end.

Definition alert_box (message alert_type : string) : string :=
  let bg_color :=
    match color_of alert_colors alert_type with
    | Some c => c
    | None => "#d1ecf1"
    end in
  nl ++ "    <div style=" ++ dq
  ++ "padding: 15px; margin: 10px 0; border-radius: 5px; background-color: "
  ++ bg_color ++ "; border-left: 5px solid #0c5460;" ++ dq ++ ">" ++ nl
  ++ "        " ++ message ++ nl
  ++ "    </div>" ++ nl ++ "    ".

Definition create_link (text url : string) : string :=
  "<a href=" ++ dq ++ url ++ dq ++ " target=" ++ dq ++ "_blank" ++ dq ++ ">"
  ++ text ++ "</a>".

Definition format_code (code language : string) : string :=
  "<pre><code class=" ++ dq ++ "language-" ++ language ++ dq ++ ">"
  ++ code ++ "</code></pre>".

Definition table_row (cell_tag : string) (cells : list string) : string :=
  "<tr>"
  ++ join EmptyString
       (map (fun cell => "<" ++ cell_tag ++ ">" ++ cell ++ "</" ++ cell_tag ++ ">") cells)
  ++ "</tr>".

Definition create_table (headers : list string) (rows : list (list string)) : string :=
  let header_html := table_row "th" headers in
  let rows_html :=
    fold_left (fun rows_html row => rows_html ++ table_row "td" row) rows EmptyString in
  nl ++ "    <table style=" ++ dq ++ "border-collapse: collapse; width: 100%;" ++ dq
  ++ ">" ++ nl
  ++ "        <thead style=" ++ dq ++ "background-color: #f0f0f0;" ++ dq ++ ">" ++ nl
  ++ "            " ++ header_html ++ nl
  ++ "        </thead>" ++ nl
  ++ "        <tbody>" ++ nl
  ++ "            " ++ rows_html ++ nl
  ++ "        </tbody>" ++ nl
  ++ "    </table>" ++ nl ++ "    ".

(** White space only. *)
Definition blank (s : string) : bool := all_chars is_space s.

(* ================================================================= *)
(** ** More examples *)

Definition update_course_tool : tool :=
  {| name := "update_course";
     properties :=
       [("course_id", Some "integer"); ("name", Some "string");
        ("course_code", Some "string"); ("event", Some "string")] |}.

(** A session that waits for the confirmation of [p], with the catalog
    [tools] and the sidebar's course [course]. *)
Definition awaiting_with (tools : list tool) (course : pyval) (p : pending) : session :=
  {| messages := [];
     pending_confirmation := Some p;
     current_course_id := course;
     available_tools := tools;
     invocations := [] |}.

(** A reply that is a tool call and nothing else, with a second call
    inside its parameters. *)
Definition nested_reply : string :=
  "{" ++ q "tool" ++ ": " ++ q "create_page" ++ ", " ++ q "parameters" ++ ": {"
  ++ q "tool" ++ ": " ++ q "delete_page" ++ ", " ++ q "parameters" ++ ": {}}}".

(** [n] slashes. *)
Fixpoint slashes (n : nat) : string :=
  match n with
  | 0 => EmptyString
  | S n' => String "/" (slashes n')
  end.

(** The declaration [d] is named [n]. *)
Definition declares (n : string) (d : declaration) : bool :=
  match decl_name d with
  | Some m => String.eqb m n
  | None => false
  end.

(** The catalog entry made from a declaration named [n]. *)
Definition entry_of (n : string) (d : declaration) : tool :=
  {| name := n; properties := decl_properties d |}.

(** Declarations in the manner of [tools/]: [get_page] is declared twice,
    [create_module_with_items] has no method in the client, and one
    declaration has no name. *)
Definition sample_declarations : list declaration :=
  [{| decl_name := Some "get_page";
      decl_properties := [("course_id", Some "integer"); ("page_url", Some "string")] |};
   {| decl_name := Some "create_module_with_items";
      decl_properties := [("course_id", Some "integer"); ("items", Some "array")] |};
   {| decl_name := None; decl_properties := [] |};
   {| decl_name := Some "get_page";
      decl_properties := [("course_id", Some "integer"); ("url_or_id", Some "string")] |};
   {| decl_name := Some "create_page";
      decl_properties := properties create_page_tool |}].

Definition sample_methods (n : string) : bool :=
  mem n ["list_courses"; "get_page"; "create_page"].

(** The failure text of [GroqService.chat]. *)
Definition groq_failure (exc : string) : string :=
  "Error communicating with Groq: " ++ exc ++ nl ++ nl
  ++ "Make sure GROQ_API_KEY is set.".

(** The environment whose chat service is [GroqService.chat] with a
    completion request that always fails with [exc]. *)
Definition offline_env (exc : string) : env :=
  {| py_int := int_of_str;
     py_float := float_of_str;
     py_str := str_of_val;
     json_loads := loads;
     json_dumps := str_of_val;
     exception_text := fun v op => "cannot apply " ++ op ++ " to " ++ str_of_val v;
     chat := fun messages tools =>
               Returned (groq_chat (fun _ => "You are a Canvas LMS assistant.")
                           (fun _ => Raised exc) messages tools);
     executor := fun _ _ _ => Returned (VList []) |}.

(** The environment [E] with the chat service replaced by [service]. *)
Definition with_chat (E : env)
    (service : list message -> list tool -> call_result string) : env :=
  {| py_int := py_int E;
     py_float := py_float E;
     py_str := py_str E;
     json_loads := json_loads E;
     json_dumps := json_dumps E;
     exception_text := exception_text E;
     chat := service;
     executor := executor E |}.

(** A session with ten messages of history, the oldest being [first]. *)
Definition long_session (first : string) : session :=
  {| messages :=
       user first
       :: [assistant "a1"; user "u2"; assistant "a2"; user "u3"; assistant "a3";
           user "u4"; assistant "a4"; user "u5"; assistant "a5"];
     pending_confirmation := None;
     current_course_id := VNone;
     available_tools := catalog;
     invocations := [] |}.

(** A tool call of the shape the specification gives a proposed action:
    an object whose [tool] is a string and whose [parameters] are an
    object. *)
Definition valid_tool_call (obj : pyval) : bool :=
  match obj with
  | VDict d =>
      is_tool_call obj && is_str (py_get d "tool") && is_dict (py_get d "parameters")
  | _ => false
  end.

(** Some substring [text[s:e]] decodes to a tool call of that shape. *)
Definition holds_valid_call (E : env) (text : string) : bool :=
  let bounds := seq 0 (S (String.length text)) in
  existsb
    (fun s =>
       existsb
         (fun e =>
            match json_loads E (slice text s e) with
            | Parsed obj => valid_tool_call obj
            | _ => false
            end)
         bounds)
    bounds.

(** Text of ASCII characters, on which [upper], [lower] and [strip] are
    [str.upper], [str.lower] and [str.strip]. *)
Definition is_ascii (s : string) : bool :=
  all_chars (fun c => (nat_of_ascii c <? 128)%nat) s.

(** A chat service that fails on fewer than ten messages. *)
Definition needs_ten (E : env) (messages : list message) (tools : list tool)
  : call_result string :=
  if (List.length messages <? 10)%nat then Raised "context too short"
  else chat E messages tools.

(** The prompts that confirm, and the prompts that ask to list courses. *)
Definition affirms (prompt : string) : bool := mem (lower prompt) affirmations.

Definition asks_for_courses (prompt : string) : bool :=
  contains "list" (lower prompt) && contains "course" (lower prompt).

(** The note of lines 467-468. *)
Definition no_action_note : string :=
  nl ++ nl
  ++ "⚠️ Note: No Canvas action was executed because no tool call was issued. Please provide a clear request so I can call the correct tool.".

(* ================================================================= *)
(** * Properties *)

#[local] Arguments Ascii.eqb : simpl never.
#[local] Arguments String.eqb : simpl never.
#[local] Arguments is_space : simpl never.

(** ** Strings *)

Lemma prefix_close_tag (s : string) :
  startswith "</" s = true -> exists r, s = String "<" (String "/" r).
Proof.
  intros H. destruct s as [|a [|b r]]; simpl in H; try discriminate H.
  - now rewrite andb_false_r in H.
  - rewrite andb_true_r in H. apply andb_true_iff in H as [Ha Hb].
    apply Ascii.eqb_eq in Ha as <-. apply Ascii.eqb_eq in Hb as <-.
    now exists r.
Qed.

Lemma contains_cons (pat : string) (c : ascii) (s : string) :
  contains pat (String c s) = startswith pat (String c s) || contains pat s.
Proof. reflexivity. Qed.

Lemma rstrip_keeps_end (x : string) (c : ascii) :
  is_space c = false ->
  rstrip (x ++ String c EmptyString) = x ++ String c EmptyString.
Proof.
  intros Hc. induction x as [|a x IH]; simpl.
  - now rewrite Hc.
  - rewrite IH. now destruct x.
Qed.

Lemma endswith_app (p x : string) : endswith p (x ++ p) = true.
Proof.
  induction x as [|a x IH]; simpl.
  - destruct p; simpl; rewrite ?String.eqb_refl; reflexivity.
  - rewrite IH. apply orb_true_r.
Qed.

Lemma contains_lstrip (s : string) :
  contains "</" s = true -> contains "</" (lstrip s) = true.
Proof.
  induction s as [|a s IH]; [trivial|].
  simpl lstrip. destruct (is_space a) eqn:Ha; [|trivial].
  rewrite contains_cons. intros H. apply orb_true_iff in H as [H|H].
  - apply prefix_close_tag in H as [r Hr]. injection Hr as -> _.
    vm_compute in Ha. discriminate.
  - now apply IH.
Qed.

Lemma rstrip_slash (r : string) : rstrip (String "/" r) = String "/" (rstrip r).
Proof. simpl. now destruct (rstrip r). Qed.

Lemma contains_rstrip (s : string) :
  contains "</" s = true -> contains "</" (rstrip s) = true.
Proof.
  induction s as [|a s IH]; [trivial|].
  rewrite contains_cons. intros H. apply orb_true_iff in H as [H|H].
  - apply prefix_close_tag in H as [r Hr]. injection Hr as -> ->.
    change (rstrip (String "<" (String "/" r)))
      with (match rstrip (String "/" r) with
            | EmptyString => String "<" EmptyString
            | String b t => String "<" (String b t)
            end).
    rewrite rstrip_slash. reflexivity.
  - specialize (IH H). simpl rstrip.
    destruct (rstrip s) as [|b t]; [discriminate|].
    rewrite contains_cons, IH. apply orb_true_r.
Qed.

Lemma contains_strip (s : string) :
  contains "</" s = true -> contains "</" (strip s) = true.
Proof. intros H. apply contains_rstrip, contains_lstrip, H. Qed.

Lemma tag_char_not_special (c : ascii) :
  tag_char c = true -> c <> "<"%char /\ c <> "/"%char /\ is_space c = false.
Proof.
  intros H. repeat split; try (intros ->; vm_compute in H; discriminate).
  unfold tag_char, is_upper_letter, is_space in *.
  destruct (Ascii.eqb c "_") eqn:Hu.
  - apply Ascii.eqb_eq in Hu as ->. reflexivity.
  - rewrite orb_false_r in H. apply andb_true_iff in H as [H1 H2].
    apply Nat.leb_le in H1. apply Nat.leb_le in H2.
    apply orb_false_iff; split; apply andb_false_iff.
    + right. apply Nat.leb_gt. lia.
    + right. apply Nat.leb_gt. lia.
Qed.

Lemma no_close_tag_in_body (body : string) :
  all_chars tag_char body = true -> contains "</" (body ++ ">") = false.
Proof.
  induction body as [|c body IH]; intros H; [reflexivity|].
  simpl in H. apply andb_true_iff in H as [Hc Hb].
  simpl append. rewrite contains_cons, (IH Hb), orb_false_r.
  destruct (startswith "</" (String c (body ++ ">"))) eqn:Hp; [|reflexivity].
  apply prefix_close_tag in Hp as [r Hr]. injection Hr as -> _.
  vm_compute in Hc. discriminate.
Qed.

Lemma upper_tag_is_bare (s : string) : upper_tag s -> bare_tag s = true.
Proof.
  intros (body & Hne & Hall & ->).
  assert (Hstrip : strip ("<" ++ body ++ ">") = "<" ++ body ++ ">").
  { unfold strip. simpl lstrip.
    change (String "<" (body ++ ">")) with (("<" ++ body) ++ ">").
    replace (("<" ++ body) ++ ">") with (("<" ++ body) ++ String ">" EmptyString)
      by reflexivity.
    now rewrite rstrip_keeps_end. }
  unfold bare_tag. rewrite Hstrip.
  apply andb_true_iff; split; [apply andb_true_iff; split|].
  - reflexivity.
  - change ("<" ++ body ++ ">") with (String "<" (body ++ ">")).
    simpl endswith. rewrite endswith_app, ?orb_true_r. reflexivity.
  - apply negb_true_iff.
    change ("<" ++ body ++ ">") with (String "<" (body ++ ">")).
    rewrite contains_cons, (no_close_tag_in_body body Hall), orb_false_r.
    destruct (startswith "</" (String "<" (body ++ ">"))) eqn:Hp; [|reflexivity].
    apply prefix_close_tag in Hp as [r Hr]. injection Hr as Hr.
    destruct body as [|c body]; [contradiction|].
    simpl in Hall. apply andb_true_iff in Hall as [Hc _].
    injection Hr as -> _. vm_compute in Hc. discriminate.
Qed.

Lemma close_tag_not_bare (s : string) :
  contains "</" s = true -> bare_tag s = false.
Proof.
  intros H. unfold bare_tag. rewrite (contains_strip s H). apply andb_false_r.
Qed.

(** ** Lists of strings and dictionaries *)

Lemma mem_In (x : string) (l : list string) : mem x l = true <-> In x l.
Proof.
  unfold mem. rewrite existsb_exists. split.
  - intros (y & Hy & Heq). apply String.eqb_eq in Heq. now subst.
  - intros H. exists x. split; [assumption|apply String.eqb_refl].
Qed.

Lemma dget_dset_same (d : dict) (k : string) (v : pyval) :
  dget (dset d k v) k = Some v.
Proof.
  induction d as [|[k' v'] d IH]; simpl.
  - now rewrite String.eqb_refl.
  - destruct (String.eqb_spec k' k); simpl.
    + now rewrite String.eqb_refl.
    + destruct (String.eqb_spec k' k); [contradiction|assumption].
Qed.

Lemma dget_dset_other (d : dict) (k k' : string) (v : pyval) :
  k <> k' -> dget (dset d k v) k' = dget d k'.
Proof.
  intros Hne. induction d as [|[k0 v0] d IH]; simpl.
  - destruct (String.eqb_spec k k'); [contradiction|reflexivity].
  - destruct (String.eqb_spec k0 k) as [->|]; simpl.
    + destruct (String.eqb_spec k k'); [contradiction|reflexivity].
    + now rewrite IH.
Qed.

Lemma dget_dremove_same (d : dict) (k : string) : dget (dremove d k) k = None.
Proof.
  induction d as [|[k' v'] d IH]; simpl; [reflexivity|].
  destruct (String.eqb_spec k' k); simpl; [assumption|].
  destruct (String.eqb_spec k' k); [contradiction|assumption].
Qed.

Lemma dget_dremove_other (d : dict) (k k' : string) :
  k <> k' -> dget (dremove d k) k' = dget d k'.
Proof.
  intros Hne. induction d as [|[k0 v0] d IH]; simpl; [reflexivity|].
  destruct (String.eqb_spec k0 k) as [->|]; simpl.
  - destruct (String.eqb_spec k k'); [contradiction|assumption].
  - now rewrite IH.
Qed.

Lemma dget_In_keys (d : dict) (k : string) (v : pyval) :
  dget d k = Some v -> In k (keys d).
Proof.
  induction d as [|[k' v'] d IH]; simpl; [discriminate|].
  destruct (String.eqb_spec k' k); [now left|]. intros H. right. now apply IH.
Qed.

Lemma dget_not_key (d : dict) (k : string) : ~ In k (keys d) -> dget d k = None.
Proof.
  intros H. destruct (dget d k) eqn:Hd; [|reflexivity].
  exfalso. apply H. eapply dget_In_keys, Hd.
Qed.

Lemma keys_dset (d : dict) (k k' : string) (v : pyval) :
  In k' (keys (dset d k v)) -> k' = k \/ In k' (keys d).
Proof.
  induction d as [|[k0 v0] d IH]; simpl.
  - intros [<-|[]]. now left.
  - destruct (String.eqb_spec k0 k) as [->|]; simpl.
    + intros [<-|H]; [now left|right; now right].
    + intros [<-|H]; [right; now left|].
      destruct (IH H); [now left|right; now right].
Qed.

Lemma keys_dremove (d : dict) (k k' : string) :
  In k' (keys (dremove d k)) -> k' <> k /\ In k' (keys d).
Proof.
  unfold keys, dremove. rewrite !in_map_iff.
  intros ([k0 v0] & <- & Hin). apply filter_In in Hin as [Hin Hne]. simpl in *.
  split.
  - intros ->. now rewrite String.eqb_refl in Hne.
  - now exists (k0, v0).
Qed.

(** ** The placeholder guard *)

Lemma has_marker_spec (s : string) :
  has_marker s = true <->
  exists pat, In pat placeholder_patterns /\ contains pat (upper s) = true.
Proof. unfold has_marker. apply existsb_exists. Qed.

Lemma detect_placeholders_spec (args : dict) :
  detect_placeholders args <> None <->
  exists key s, In (key, VStr s) args /\ (has_marker s = true \/ bare_tag s = true).
Proof.
  induction args as [|[k v] args IH]; simpl.
  - split; [congruence|]. now intros (? & ? & [] & _).
  - split.
    + intros H. destruct v;
        try (apply IH in H as (key & s & Hin & Hs); exists key, s; split;
             [now right|exact Hs]).
      destruct (has_marker s) eqn:Hm; [exists k, s; split; [now left|now left]|].
      destruct (bare_tag s) eqn:Hb; [exists k, s; split; [now left|now right]|].
      apply IH in H as (key & s' & Hin & Hs). exists key, s'. split; [now right|exact Hs].
    + intros (key & s & [Heq|Hin] & Hs).
      * injection Heq as -> ->. destruct Hs as [-> | Hb]; [discriminate|].
        destruct (has_marker s); [discriminate|]. rewrite Hb. discriminate.
      * assert (Hrest : detect_placeholders args <> None)
          by (apply IH; now exists key, s).
        destruct v; try exact Hrest.
        destruct (has_marker s0); [discriminate|].
        destruct (bare_tag s0); [discriminate|exact Hrest].
Qed.

Lemma guard_skips_non_strings (a b : dict) (key : string) (v : pyval) :
  is_str v = false ->
  detect_placeholders (a ++ (key, v) :: b)%list = detect_placeholders (a ++ b)%list.
Proof.
  intros Hv. induction a as [|[k w] a IH]; simpl.
  - destruct v; try reflexivity. discriminate.
  - rewrite IH. reflexivity.
Qed.

Lemma guard_passes_clean (args : dict) :
  (forall key s, In (key, VStr s) args -> has_marker s = false /\ bare_tag s = false) ->
  detect_placeholders args = None.
Proof.
  intros H. destruct (detect_placeholders args) as [msg|] eqn:Hd; [|reflexivity].
  assert (Hne : detect_placeholders args <> None) by congruence.
  apply detect_placeholders_spec in Hne as (key & s & Hin & Hs).
  destruct (H key s Hin) as [Hm Hb]. rewrite Hm, Hb in Hs.
  destruct Hs; discriminate.
Qed.

(** ** The normaliser *)

Lemma filter_args_declared (expected_params : list string) (a : dict) (k : string) :
  In k (keys (filter_args expected_params a)) -> In k expected_params.
Proof.
  unfold keys, filter_args. rewrite in_map_iff.
  intros ([k0 v0] & <- & Hin). apply filter_In in Hin as [_ Hm].
  now apply mem_In.
Qed.

Lemma filter_args_keeps_declared (expected_params : list string) (a : dict) :
  (forall k, In k (keys a) -> In k expected_params) ->
  filter_args expected_params a = a.
Proof.
  intros H. induction a as [|[k v] a IH]; [reflexivity|].
  unfold filter_args in *. simpl.
  assert (Hk : mem k expected_params = true) by (apply mem_In, H; now left).
  rewrite Hk. f_equal. apply IH. intros k' Hk'. apply H. now right.
Qed.

Lemma filter_args_subset (expected_params : list string) (a : dict) (k : string) :
  In k (keys (filter_args expected_params a)) -> In k (keys a).
Proof.
  unfold keys, filter_args. rewrite !in_map_iff.
  intros (kv & <- & Hin). apply filter_In in Hin as [Hin _]. now exists kv.
Qed.

Lemma convert_value_idempotent (E : env) (ty : string) (v : pyval) :
  convert_value E ty (convert_value E ty v) = convert_value E ty v.
Proof.
  destruct v as [ | b | z | f | s | l | d];
    try (unfold convert_value;
         destruct (String.eqb ty "boolean") eqn:Hb; [|reflexivity];
         simpl; now rewrite ?Hb).
  remember (convert_value E ty (VStr s)) as w eqn:Hw.
  unfold convert_value in Hw.
  destruct (String.eqb_spec ty "integer") as [->|Hi].
  { destruct (py_int E s) eqn:Hp; subst w; [reflexivity|].
    unfold convert_value. now rewrite String.eqb_refl, Hp. }
  destruct (String.eqb_spec ty "boolean") as [->|Hb]; [now subst w|].
  destruct (String.eqb_spec ty "number") as [->|Hn].
  { destruct (py_float E s) eqn:Hp; subst w; [reflexivity|].
    unfold convert_value. now rewrite Hp. }
  subst w. unfold convert_value.
  destruct (String.eqb_spec ty "integer"); [contradiction|].
  destruct (String.eqb_spec ty "boolean"); [contradiction|].
  destruct (String.eqb_spec ty "number"); [contradiction|reflexivity].
Qed.

Lemma convert_entry_key (E : env) (props : list (string * option string))
    (kv : string * pyval) :
  fst (convert_entry E props kv) = fst kv.
Proof.
  destruct kv as [k v]. unfold convert_entry.
  now destruct (lookup_prop props k).
Qed.

Lemma convert_entry_idempotent (E : env) (props : list (string * option string))
    (kv : string * pyval) :
  convert_entry E props (convert_entry E props kv) = convert_entry E props kv.
Proof.
  destruct kv as [k v]. unfold convert_entry.
  destruct (lookup_prop props k) eqn:Hl; rewrite Hl; [|reflexivity].
  now rewrite convert_value_idempotent.
Qed.

Lemma keys_convert (E : env) (a : dict) (props : list (string * option string)) :
  keys (convert_argument_types E a props) = keys a.
Proof.
  unfold keys, convert_argument_types. rewrite map_map.
  apply map_ext. intros kv. apply convert_entry_key.
Qed.

Lemma include_items_removed (a : dict) :
  ~ In "include_items" (keys (map_include_items a)).
Proof.
  unfold map_include_items.
  destruct (dget a "include_items") as [v|] eqn:Hg.
  - destruct (include_items_requested v).
    + intros H. apply keys_dset in H as [H|H]; [discriminate|].
      apply keys_dremove in H as [H _]. now apply H.
    + intros H. apply keys_dremove in H as [H _]. now apply H.
  - intros H. unfold keys in H. apply in_map_iff in H as ([k v] & Hk & Hin).
    simpl in Hk. subst k.
    assert (Hs : dget a "include_items" <> None).
    { clear Hg. induction a as [|[k' v'] a IH]; [contradiction|]. simpl.
      destruct (String.eqb_spec k' "include_items"); [discriminate|].
      destruct Hin as [Heq|Hin]; [congruence|now apply IH]. }
    contradiction.
Qed.

Lemma alias_step_declared (expected_params : list string) (a : dict)
    (alias : string * string) :
  (forall k, In k (keys a) -> In k expected_params) ->
  alias_step expected_params a alias = a.
Proof.
  intros H. destruct alias as [incoming target]. unfold alias_step.
  destruct (dget a incoming) as [v|] eqn:Hg; [|reflexivity].
  apply dget_In_keys, H, mem_In in Hg. now rewrite Hg.
Qed.

Lemma apply_aliases_declared (table : list (string * string))
    (expected_params : list string) (a : dict) :
  (forall k, In k (keys a) -> In k expected_params) ->
  apply_aliases table expected_params a = a.
Proof.
  intros H. unfold apply_aliases. induction table as [|alias table IH]; simpl.
  - reflexivity.
  - now rewrite alias_step_declared.
Qed.

Lemma normalize_with_declared (table : list (string * string)) (E : env)
    (course : pyval) (props : list (string * option string)) (a : dict) (k : string) :
  In k (keys (normalize_with table E course props a)) -> In k (map fst props).
Proof. unfold normalize_with. apply filter_args_declared. Qed.

Lemma normalize_with_stable (table : list (string * string)) (E : env)
    (course : pyval) (props : list (string * option string)) (a : dict) :
  let out := normalize_with table E course props a in
  injects course (map fst props) out = false ->
  normalize_with table E course props out = out.
Proof.
  intros out Hinj.
  assert (Hdecl : forall k, In k (keys out) -> In k (map fst props))
    by (intros k; apply normalize_with_declared).
  assert (Hinc : dget out "include_items" = None).
  { apply dget_not_key. intros Hin. unfold out, normalize_with in Hin.
    apply filter_args_subset in Hin. rewrite keys_convert in Hin.
    now apply include_items_removed in Hin. }
  assert (Hconv : convert_argument_types E out props = out).
  { unfold out, normalize_with, filter_args, convert_argument_types.
    set (a3 := map_include_items _). clearbody a3. clear.
    induction a3 as [|kv a3 IH]; [reflexivity|]. simpl.
    destruct (mem (fst (convert_entry E props kv)) (map fst props)); simpl.
    - now rewrite convert_entry_idempotent, IH.
    - exact IH. }
  unfold normalize_with at 1. fold out.
  assert (H1 : inject_course_id course (map fst props) out = out).
  { unfold inject_course_id. unfold injects in Hinj.
    destruct (truthy course && mem "course_id" (map fst props)); [|reflexivity].
    simpl in Hinj. now rewrite Hinj. }
  rewrite H1, (apply_aliases_declared _ _ _ Hdecl).
  unfold map_include_items. rewrite Hinc, Hconv.
  now apply filter_args_keeps_declared.
Qed.

(** ** The chat handler *)

Lemma find_tool_names (fn : pyval) (tools : list tool) :
  existsb (eq_str fn) (map name tools) = false ->
  find (fun t => eq_str fn (name t)) tools = None.
Proof.
  induction tools as [|t tools IH]; simpl; [reflexivity|].
  destruct (eq_str fn (name t)); simpl; [discriminate|exact IH].
Qed.

Lemma lower_not_empty (prompt word : string) :
  lower prompt = word -> word <> EmptyString -> prompt <> EmptyString.
Proof. intros H Hw ->. now apply Hw. Qed.

Lemma mem_lower_not_empty (prompt : string) (words : list string) :
  mem (lower prompt) words = true -> mem EmptyString words = false ->
  String.eqb prompt EmptyString = false.
Proof.
  intros H Hw. destruct (String.eqb_spec prompt EmptyString) as [->|]; [|reflexivity].
  change (lower EmptyString) with EmptyString in H. congruence.
Qed.

Lemma confirm_spec (E : env) (st : session) (prompt : string) (p : pending) :
  pending_confirmation (confirm E st prompt p) = None
  /\ invocations (confirm E st prompt p) = (invocations st ++ calls_of E st p)%list
  /\ exists answer,
       messages (confirm E st prompt p)
       = (messages st ++ [user prompt; assistant answer])%list.
Proof.
  unfold confirm, calls_of, accepted_call.
  destruct (existsb (eq_str (function_name p)) (map name (available_tools st))) eqn:Hex;
    simpl.
  - destruct (find _ (available_tools st)) as [t|]; simpl.
    + unfold run_tool. destruct (arguments p); simpl; eauto.
      destruct (detect_placeholders _); simpl; eauto.
      destruct (invalid_event _ _); simpl; eauto.
      destruct (executor E _ _ _); simpl; eauto.
    + eauto.
  - rewrite (find_tool_names _ _ Hex). simpl. eauto.
Qed.

Lemma render_chat_confirm (E : env) (st : session) (prompt : string) (p : pending) :
  pending_confirmation st = Some p ->
  mem (lower prompt) affirmations = true ->
  render_chat E st prompt = confirm E st prompt p.
Proof.
  intros Hp Hyes. unfold render_chat.
  rewrite (mem_lower_not_empty prompt affirmations Hyes eq_refl), Hp, Hyes.
  reflexivity.
Qed.

Lemma render_chat_cancel (E : env) (st : session) (prompt : string) (p : pending) :
  pending_confirmation st = Some p ->
  mem (lower prompt) rejections = true ->
  mem (lower prompt) affirmations = false ->
  render_chat E st prompt = cancel st prompt.
Proof.
  intros Hp Hno Hyes. unfold render_chat.
  rewrite (mem_lower_not_empty prompt rejections Hno eq_refl), Hp, Hyes, Hno.
  reflexivity.
Qed.

Lemma render_chat_unclear (E : env) (st : session) (prompt : string) (p : pending) :
  pending_confirmation st = Some p ->
  mem (lower prompt) affirmations = false ->
  mem (lower prompt) rejections = false ->
  render_chat E st prompt = st.
Proof.
  intros Hp Hyes Hno. unfold render_chat.
  destruct (String.eqb prompt EmptyString); [reflexivity|].
  now rewrite Hp, Hyes, Hno.
Qed.

Lemma render_chat_idle (E : env) (st : session) (prompt : string) :
  pending_confirmation st = None -> prompt <> EmptyString ->
  render_chat E st prompt = process_message E st prompt.
Proof.
  intros Hp Hne. unfold render_chat.
  destruct (String.eqb_spec prompt EmptyString); [contradiction|].
  now rewrite Hp.
Qed.

Lemma process_message_proposal (E : env) (st : session) (prompt reply : string)
    (p : pending) :
  chat E (lastn 10 (messages st ++ [user prompt])%list) (available_tools st)
  = Returned reply ->
  extract_tool_call E reply = Some p ->
  pending_confirmation (process_message E st prompt) = Some p
  /\ invocations (process_message E st prompt) = invocations st.
Proof.
  intros Hc Hx. unfold process_message. rewrite Hc, Hx. simpl.
  split; [reflexivity|apply app_nil_r].
Qed.

Lemma process_message_no_call (E : env) (st : session) (prompt : string) :
  (exists msg,
      chat E (lastn 10 (messages st ++ [user prompt])%list) (available_tools st)
      = Raised msg)
  \/ (exists reply,
         chat E (lastn 10 (messages st ++ [user prompt])%list) (available_tools st)
         = Returned reply
         /\ extract_tool_call E reply = None) ->
  pending_confirmation (process_message E st prompt) = pending_confirmation st.
Proof.
  unfold process_message.
  intros [(msg & ->)|(reply & -> & ->)]; [reflexivity|].
  now destruct (contains "list" (lower prompt) && contains "course" (lower prompt)).
Qed.

Lemma contains_not_empty (pat prompt : string) :
  pat <> EmptyString -> contains pat (lower prompt) = true -> prompt <> EmptyString.
Proof.
  intros Hp H ->. destruct pat; [contradiction|discriminate].
Qed.

Lemma process_message_fallback (E : env) (st : session) (prompt reply : string) :
  chat E (lastn 10 (messages st ++ [user prompt])%list) (available_tools st)
  = Returned reply ->
  extract_tool_call E reply = None ->
  contains "list" (lower prompt) = true ->
  contains "course" (lower prompt) = true ->
  process_message E st prompt
  = update st
      [user prompt;
       assistant
         (courses_text E
            (executor E (invocations st) "list_courses"
               [("enrollment_type", VStr "teacher");
                ("enrollment_state", VStr "active")]))]
      [("list_courses",
        [("enrollment_type", VStr "teacher"); ("enrollment_state", VStr "active")])]
      (pending_confirmation st).
Proof.
  intros Hc Hx Hl Hco. unfold process_message. rewrite Hc, Hx, Hl, Hco. reflexivity.
Qed.

(** ** The scan for the tool call *)

Lemma rejects_not_call (E : env) (snippet : string) (obj : pyval) :
  json_loads E snippet = Parsed obj -> is_tool_call obj = false -> rejects E snippet.
Proof. intros H Hc. unfold rejects. now rewrite H. Qed.

Lemma rejects_decode_error (E : env) (snippet : string) :
  json_loads E snippet = DecodeError -> rejects E snippet.
Proof. intros H. unfold rejects. now rewrite H. Qed.

Lemma accepts_not_rejects (E : env) (snippet : string) (d : dict) :
  accepts E snippet d -> ~ rejects E snippet.
Proof.
  intros (Hl & Ht & Hp). unfold rejects. rewrite Hl. simpl. rewrite Ht, Hp. discriminate.
Qed.

(** The inner loop returns the rightmost closing brace that is accepted. *)
Lemma scan_ends_found (E : env) (text : string) (s k : nat) (d : dict) :
  scan_ends E text s k = Found d ->
  exists j,
    1 <= j <= k
    /\ char_at text (s + j - 1) "}" = true
    /\ accepts E (slice text s (s + j)) d
    /\ forall j', j < j' <= k -> char_at text (s + j' - 1) "}" = true ->
                  rejects E (slice text s (s + j')).
Proof.
  induction k as [|k IH]; [discriminate|].
  cbn [scan_ends].
  assert (Hrest : scan_ends E text s k = Found d ->
                  (char_at text (s + S k - 1) "}" = true ->
                   rejects E (slice text s (s + S k))) ->
                  exists j, 1 <= j <= S k
                    /\ char_at text (s + j - 1) "}" = true
                    /\ accepts E (slice text s (s + j)) d
                    /\ forall j', j < j' <= S k ->
                         char_at text (s + j' - 1) "}" = true ->
                         rejects E (slice text s (s + j'))).
  { intros Hk Hlast. destruct (IH Hk) as (j & Hj & Hc & Ha & Hr).
    exists j. split; [lia|]. split; [assumption|]. split; [assumption|].
    intros j' Hj' Hc'. destruct (Nat.eq_dec j' (S k)) as [->|Hne].
    - now apply Hlast.
    - apply Hr; [lia|assumption]. }
  destruct (char_at text (s + S k - 1) "}") eqn:Hc.
  - destruct (json_loads E (slice text s (s + S k))) as [obj| |msg] eqn:Hl.
    + destruct obj as [ | | | | | |d0];
        try (intros Hk; apply Hrest; [exact Hk|];
             intros _; now apply (rejects_not_call _ _ _ Hl)).
      destruct (is_tool_call (VDict d0)) eqn:Ht.
      * intros Hf. injection Hf as ->. exists (S k).
        simpl in Ht. apply andb_true_iff in Ht as [Ht Hp].
        split; [lia|]. split; [assumption|]. split; [now split|].
        intros j' Hj'. lia.
      * intros Hk. apply Hrest; [exact Hk|].
        intros _. now apply (rejects_not_call _ _ _ Hl).
    + intros Hk. apply Hrest; [exact Hk|]. intros _. now apply rejects_decode_error.
    + discriminate.
  - intros Hk. apply Hrest; [exact Hk|discriminate].
Qed.

Lemma scan_ends_not_found (E : env) (text : string) (s k : nat) :
  scan_ends E text s k = NotFound <->
  forall j, 1 <= j <= k -> char_at text (s + j - 1) "}" = true ->
            rejects E (slice text s (s + j)).
Proof.
  induction k as [|k IH].
  - split; [intros _ j Hj; lia|reflexivity].
  - cbn [scan_ends]. split.
    + intros H j Hj Hc. destruct (Nat.eq_dec j (S k)) as [->|Hne].
      * rewrite Hc in H.
        destruct (json_loads E (slice text s (s + S k))) as [obj| |msg] eqn:Hl.
        -- apply (rejects_not_call _ _ _ Hl).
           destruct obj; try reflexivity.
           destruct (is_tool_call (VDict d)); [discriminate|reflexivity].
        -- now apply rejects_decode_error.
        -- discriminate.
      * assert (Hk : scan_ends E text s k = NotFound).
        { destruct (char_at text (s + S k - 1) "}"); [|exact H].
          destruct (json_loads E (slice text s (s + S k))) as [obj| |msg];
            try assumption; try discriminate.
          destruct obj; try assumption.
          destruct (is_tool_call (VDict d)); [discriminate|assumption]. }
        apply (proj1 IH Hk); [lia|assumption].
    + intros H.
      assert (Hk : scan_ends E text s k = NotFound).
      { apply IH. intros j Hj Hc. apply H; [lia|assumption]. }
      destruct (char_at text (s + S k - 1) "}") eqn:Hc; [|exact Hk].
      specialize (H (S k) ltac:(lia) Hc). unfold rejects in H.
      destruct (json_loads E (slice text s (s + S k))) as [obj| |msg];
        try assumption; try contradiction.
      destruct obj; try assumption. now rewrite H.
Qed.

Lemma scan_ends_first (E : env) (text : string) (s k j : nat) (d : dict) :
  1 <= j <= k ->
  char_at text (s + j - 1) "}" = true ->
  accepts E (slice text s (s + j)) d ->
  (forall j', j < j' <= k -> char_at text (s + j' - 1) "}" = true ->
              rejects E (slice text s (s + j'))) ->
  scan_ends E text s k = Found d.
Proof.
  intros Hj Hc Ha Hr. induction k as [|k IH]; [lia|].
  cbn [scan_ends]. destruct (Nat.eq_dec j (S k)) as [->|Hne].
  - rewrite Hc. destruct Ha as (Hl & Ht & Hp). rewrite Hl. simpl.
    now rewrite Ht, Hp.
  - assert (Hk : scan_ends E text s k = Found d).
    { apply IH; [lia|]. intros j' Hj' Hc'. apply Hr; [lia|assumption]. }
    destruct (char_at text (s + S k - 1) "}") eqn:Hc'; [|exact Hk].
    specialize (Hr (S k) ltac:(lia) Hc'). unfold rejects in Hr.
    destruct (json_loads E (slice text s (s + S k))) as [obj| |msg];
      try assumption; try contradiction.
    destruct obj; try assumption. now rewrite Hr.
Qed.

(** The outer loop returns what the first successful inner loop returns. *)
Lemma scan_starts_found (E : env) (text : string) (starts : list nat) (d : dict) :
  scan_starts E text starts = Found d ->
  exists pre s post,
    starts = (pre ++ s :: post)%list
    /\ (forall s', In s' pre ->
                   scan_ends E text s' (String.length text - s') = NotFound)
    /\ scan_ends E text s (String.length text - s) = Found d.
Proof.
  induction starts as [|s0 starts IH]; [discriminate|]. simpl.
  destruct (scan_ends E text s0 (String.length text - s0)) as [d0| |msg] eqn:H0.
  - intros Hf. injection Hf as ->. exists [], s0, starts.
    repeat split; [intros s' []|assumption].
  - intros Hf. destruct (IH Hf) as (pre & s & post & -> & Hpre & Hs).
    exists (s0 :: pre), s, post. repeat split; [|assumption].
    intros s' [<-|Hin]; [assumption|now apply Hpre].
  - discriminate.
Qed.

Lemma scan_starts_first (E : env) (text : string) (pre post : list nat)
    (s : nat) (d : dict) :
  (forall s', In s' pre ->
              scan_ends E text s' (String.length text - s') = NotFound) ->
  scan_ends E text s (String.length text - s) = Found d ->
  scan_starts E text (pre ++ s :: post)%list = Found d.
Proof.
  intros Hpre Hs. induction pre as [|s0 pre IH]; simpl.
  - now rewrite Hs.
  - rewrite (Hpre s0 (or_introl eq_refl)). apply IH.
    intros s' Hin. apply Hpre. now right.
Qed.

Lemma char_at_cons (a : ascii) (text : string) (i : nat) (c : ascii) :
  char_at (String a text) (S i) c = char_at text i c.
Proof. reflexivity. Qed.

(** The indices of the opening braces, in increasing order. *)
Lemma brace_indices_before (text : string) (i s : nat) :
  char_at text s "{" = true ->
  exists pre post,
    brace_indices i text = (pre ++ (i + s) :: post)%list
    /\ forall x, In x pre ->
         exists s', x = i + s' /\ s' < s /\ char_at text s' "{" = true.
Proof.
  revert i s. induction text as [|a text IH]; intros i s Hc.
  - unfold char_at in Hc. now destruct s.
  - destruct s as [|s].
    + unfold char_at in Hc. simpl in Hc. cbn [brace_indices]. rewrite Hc.
      exists [], (brace_indices (S i) text). rewrite Nat.add_0_r.
      split; [reflexivity|intros x []].
    + rewrite char_at_cons in Hc.
      destruct (IH (S i) s Hc) as (pre & post & Heq & Hpre).
      cbn [brace_indices]. destruct (Ascii.eqb a "{") eqn:Ha.
      * exists (i :: pre), post. split.
        -- simpl. rewrite Heq. now replace (i + S s) with (S i + s) by lia.
        -- intros x [<-|Hin].
           ++ exists 0. repeat split; [lia|lia|].
              unfold char_at. simpl. exact Ha.
           ++ destruct (Hpre x Hin) as (s' & -> & Hlt & Hc').
              exists (S s'). repeat split; [lia|lia|]. now rewrite char_at_cons.
      * exists pre, post. split.
        -- rewrite Heq. now replace (i + S s) with (S i + s) by lia.
        -- intros x Hin. destruct (Hpre x Hin) as (s' & -> & Hlt & Hc').
           exists (S s'). repeat split; [lia|lia|]. now rewrite char_at_cons.
Qed.

Lemma brace_indices_split (text : string) (i x : nat) (pre post : list nat) :
  brace_indices i text = (pre ++ x :: post)%list ->
  exists s,
    x = i + s /\ char_at text s "{" = true
    /\ forall s', s' < s -> char_at text s' "{" = true -> In (i + s') pre.
Proof.
  revert i pre. induction text as [|a text IH]; intros i pre Heq.
  - destruct pre; discriminate.
  - cbn [brace_indices] in Heq. destruct (Ascii.eqb a "{") eqn:Ha.
    + destruct pre as [|y pre]; simpl in Heq.
      * injection Heq as <- _. exists 0. repeat split; [lia| |intros s' Hs'; lia].
        unfold char_at. simpl. exact Ha.
      * injection Heq as <- Heq. destruct (IH (S i) pre Heq) as (s & -> & Hc & Hlt).
        exists (S s). repeat split; [lia|now rewrite char_at_cons|].
        intros s' Hs' Hc'. destruct s' as [|s']; [left; lia|].
        right. rewrite char_at_cons in Hc'.
        replace (i + S s') with (S i + s') by lia. apply Hlt; [lia|assumption].
    + destruct (IH (S i) pre Heq) as (s & -> & Hc & Hlt).
      exists (S s). repeat split; [lia|now rewrite char_at_cons|].
      intros s' Hs' Hc'. destruct s' as [|s'].
      * unfold char_at in Hc'. simpl in Hc'. congruence.
      * rewrite char_at_cons in Hc'.
        replace (i + S s') with (S i + s') by lia. apply Hlt; [lia|assumption].
Qed.

Lemma extract_sound (E : env) (text : string) (p : pending) :
  extract_tool_call E text = Some p ->
  contains "{" text = true /\ contains "tool" text = true
  /\ exists s e d,
       candidate text s e /\ accepts E (slice text s e) d /\ p = pending_of d
       /\ forall s' e', candidate text s' e' -> tried_before s' e' s e ->
                        rejects E (slice text s' e').
Proof.
  unfold extract_tool_call.
  destruct (contains "{" text) eqn:Hb; [|discriminate].
  destruct (contains "tool" text) eqn:Ht; [|discriminate]. simpl.
  destruct (scan_starts E text (brace_indices 0 text)) as [d| |msg] eqn:Hs;
    try discriminate.
  intros Hp. injection Hp as <-. split; [reflexivity|]. split; [reflexivity|].
  apply scan_starts_found in Hs as (pre & s & post & Heq & Hpre & Hs).
  apply brace_indices_split in Heq as (s0 & Hs0 & Hopen & Hbefore).
  simpl in Hs0. subst s0.
  apply scan_ends_found in Hs as (j & Hj & Hclose & Hacc & Hrej).
  exists s, (s + j), d. split; [|split; [exact Hacc|split; [reflexivity|]]].
  - split; [exact Hopen|]. split; [lia|exact Hclose].
  - intros s' e' (Hopen' & Hrange & Hclose') [Hlt|[-> Hlt]].
    + specialize (Hbefore s' Hlt Hopen'). simpl in Hbefore.
      specialize (Hpre s' Hbefore).
      replace e' with (s' + (e' - s')) by lia.
      apply (proj1 (scan_ends_not_found E text s' _) Hpre); [lia|].
      now replace (s' + (e' - s') - 1) with (e' - 1) by lia.
    + replace e' with (s + (e' - s)) by lia.
      apply Hrej; [lia|].
      now replace (s + (e' - s) - 1) with (e' - 1) by lia.
Qed.

Lemma extract_first (E : env) (text : string) (s e : nat) (d : dict) :
  contains "{" text = true -> contains "tool" text = true ->
  candidate text s e -> accepts E (slice text s e) d ->
  (forall s' e', candidate text s' e' -> tried_before s' e' s e ->
                 rejects E (slice text s' e')) ->
  extract_tool_call E text = Some (pending_of d).
Proof.
  intros Hb Ht (Hopen & Hrange & Hclose) Hacc Hrej.
  unfold extract_tool_call. rewrite Hb, Ht. simpl.
  destruct (brace_indices_before text 0 s Hopen) as (pre & post & Heq & Hpre).
  simpl in Heq. rewrite Heq.
  rewrite (scan_starts_first E text pre post s d); [reflexivity| |].
  - intros s' Hin. destruct (Hpre s' Hin) as (s0 & -> & Hlt & Hopen'). simpl.
    apply scan_ends_not_found. intros j Hj Hc.
    apply Hrej; [|now left].
    split; [exact Hopen'|]. split; [lia|exact Hc].
  - apply (scan_ends_first E text s _ (e - s)).
    + lia.
    + now replace (s + (e - s) - 1) with (e - 1) by lia.
    + now replace (s + (e - s)) with e by lia.
    + intros j' Hj' Hc. apply Hrej; [|right; split; [reflexivity|lia]].
      split; [exact Hopen|]. split; [lia|exact Hc].
Qed.

Lemma extract_none (E : env) (text : string) :
  (forall s e d, candidate text s e -> ~ accepts E (slice text s e) d) ->
  extract_tool_call E text = None.
Proof.
  intros H. destruct (extract_tool_call E text) as [p|] eqn:Hx; [|reflexivity].
  apply extract_sound in Hx as (_ & _ & s & e & d & Hc & Ha & _).
  now destruct (H s e d Hc).
Qed.

Lemma extract_aborted (E : env) (text msg : string) :
  scan_starts E text (brace_indices 0 text) = Aborted msg ->
  extract_tool_call E text = None.
Proof.
  intros H. unfold extract_tool_call. rewrite H.
  now destruct (contains "{" text && contains "tool" text).
Qed.

(* ================================================================= *)
(** * The claims *)

(** ** C4: the placeholder guard *)

(** C4.  [detect_placeholders] raises exactly when some string-valued
    argument (a) contains, once upper-cased, one of the six markers, or (b)
    once stripped starts with [<], ends with [>] and contains no [</].  In
    particular it raises on every argument of the form [<] [A-Z_]+ [>], and
    a string that contains [</] never meets condition (b). *)
Theorem placeholder_guard_characterised :
  (forall args : dict,
      detect_placeholders args <> None <->
      exists key s,
        In (key, VStr s) args
        /\ ((exists pat,
                In pat ["<YOUR_"; "<HTML_"; "<INSERT_"; "<COURSE_"; "<PAGE_"; "<MODULE_"]
                /\ contains pat (upper s) = true)
            \/ (startswith "<" (strip s) = true /\ endswith ">" (strip s) = true
                /\ contains "</" (strip s) = false)))
  /\ (forall (args : dict) key s,
         In (key, VStr s) args -> upper_tag s -> detect_placeholders args <> None)
  /\ (forall s, contains "</" s = true ->
                (startswith "<" (strip s) && endswith ">" (strip s)
                 && negb (contains "</" (strip s))) = false).
Proof.
  split; [|split].
  - intros args. rewrite detect_placeholders_spec.
    split; intros (key & s & Hin & Hs); exists key, s; (split; [exact Hin|]).
    + destruct Hs as [Hm|Hb].
      * left. now apply has_marker_spec.
      * right. unfold bare_tag in Hb.
        apply andb_true_iff in Hb as [Hb Hc]. apply andb_true_iff in Hb as [Ha Hb].
        now apply negb_true_iff in Hc.
    + destruct Hs as [Hm|(Ha & Hb & Hc)].
      * left. now apply has_marker_spec.
      * right. unfold bare_tag. now rewrite Ha, Hb, Hc.
  - intros args key s Hin Htag. apply detect_placeholders_spec.
    exists key, s. split; [exact Hin|]. right. now apply upper_tag_is_bare.
  - intros s Hs. apply (close_tag_not_bare s Hs).
Qed.

Lemma placeholder_guard_characterised_witness :
  detect_placeholders [("title", VStr "Welcome"); ("course_id", VStr "<COURSE_ID>")]
  <> None
  /\ (startswith "<" (strip " <h1>Welcome</h1> ")
      && endswith ">" (strip " <h1>Welcome</h1> ")
      && negb (contains "</" (strip " <h1>Welcome</h1> "))) = false.
Proof.
  destruct placeholder_guard_characterised as (_ & Htag & Hclose). split.
  - apply (Htag _ "course_id" "<COURSE_ID>").
    + right. left. reflexivity.
    + exists "COURSE_ID". repeat split. discriminate.
  - apply Hclose. reflexivity.
Defined.

(** ** C10: the guard looks at top-level strings only *)

(** C10.  An argument whose value is not a string never changes the verdict
    of [detect_placeholders], whatever it holds; the guard passes as soon as
    the string-valued arguments are clean; and a confirmed call whose
    normalised arguments pass it reaches the Canvas client with exactly these
    arguments, nested values included. *)
Theorem guard_ignores_nested_values :
  (forall (a b : dict) key v,
      is_str v = false ->
      detect_placeholders (a ++ (key, v) :: b)%list = detect_placeholders (a ++ b)%list)
  /\ (forall args : dict,
         (forall key s, In (key, VStr s) args ->
                        has_marker s = false /\ bare_tag s = false) ->
         detect_placeholders args = None)
  /\ (forall E st prompt p t raw,
         pending_confirmation st = Some p ->
         mem (lower prompt) affirmations = true ->
         find (fun t => eq_str (function_name p) (name t)) (available_tools st) = Some t ->
         arguments p = VDict raw ->
         let filtered_args := normalize E (current_course_id st) (properties t) raw in
         (forall key s, In (key, VStr s) filtered_args ->
                        has_marker s = false /\ bare_tag s = false) ->
         invalid_event (function_name p) filtered_args = false ->
         invocations (render_chat E st prompt)
         = (invocations st ++ [(name t, filtered_args)])%list).
Proof.
  split; [|split].
  - intros a b key v Hv. now apply guard_skips_non_strings.
  - apply guard_passes_clean.
  - intros E st prompt p t raw Hp Hyes Hfind Hargs filtered_args Hclean Hev.
    rewrite (render_chat_confirm E st prompt p Hp Hyes).
    destruct (confirm_spec E st prompt p) as (_ & -> & _).
    unfold calls_of, accepted_call. rewrite Hfind, Hargs.
    fold filtered_args. now rewrite (guard_passes_clean _ Hclean), Hev.
Qed.

Lemma guard_ignores_nested_values_witness :
  detect_placeholders [("name", VStr "Week 1"); ("items", nested_items)] = None
  /\ invocations (render_chat idle_env (awaiting nested_call) "yes")
     = [("create_module_with_items",
         [("course_id", VInt 5); ("name", VStr "Week 1"); ("items", nested_items)])].
Proof.
  destruct guard_ignores_nested_values as (_ & Hclean & Hforward). split.
  - apply Hclean. intros key s [H|[H|[]]]; inversion H. split; reflexivity.
  - apply (Hforward idle_env (awaiting nested_call) "yes" nested_call
             create_module_with_items_tool
             [("course_id", VInt 5); ("name", VStr "Week 1"); ("items", nested_items)]);
      try reflexivity.
    intros key s [H|[H|[H|[]]]]; inversion H. split; reflexivity.
Defined.

(** ** C2: only declared parameters reach the executor *)

(** C2.  When the operator confirms a pending call, every call made to the
    Canvas client is for the catalog tool named by the pending call, and
    every key of its argument mapping is a parameter declared in that tool's
    schema: the keys left after injection, rewrites and coercion that are
    not declared have been dropped. *)
Theorem executor_arguments_declared :
  forall E st prompt p,
    pending_confirmation st = Some p ->
    mem (lower prompt) affirmations = true ->
    exists calls,
      invocations (render_chat E st prompt) = (invocations st ++ calls)%list
      /\ forall fn args,
           In (fn, args) calls ->
           exists t raw,
             find (fun t => eq_str (function_name p) (name t)) (available_tools st)
             = Some t
             /\ fn = name t
             /\ arguments p = VDict raw
             /\ (forall k, In k (keys args) -> In k (map fst (properties t)))
             /\ (forall k v, In (k, v) args ->
                   In k (keys (convert_argument_types E
                           (map_include_items
                              (apply_aliases param_aliases (map fst (properties t))
                                 (inject_course_id (current_course_id st)
                                    (map fst (properties t)) raw)))
                           (properties t)))).
Proof.
  intros E st prompt p Hp Hyes.
  rewrite (render_chat_confirm E st prompt p Hp Hyes).
  destruct (confirm_spec E st prompt p) as (_ & Hinv & _).
  exists (calls_of E st p). split; [exact Hinv|].
  unfold calls_of, accepted_call.
  destruct (find _ (available_tools st)) as [t|]; [|intros ? ? []].
  destruct (arguments p) as [ | | | | | |raw]; try (intros ? ? []).
  destruct (detect_placeholders _); [intros ? ? []|].
  destruct (invalid_event _ _); [intros ? ? []|].
  intros fn args [Heq|[]]. injection Heq as <- <-.
  exists t, raw. repeat split.
  - intros k. apply normalize_with_declared.
  - intros k v Hin. unfold normalize, normalize_with in Hin.
    apply (filter_args_subset (map fst (properties t))).
    unfold keys. apply in_map_iff. now exists (k, v).
Qed.

Lemma executor_arguments_declared_witness :
  exists calls,
    invocations (render_chat idle_env (awaiting messy_call) "Yes")
    = (invocations (awaiting messy_call) ++ calls)%list
    /\ forall fn args,
         In (fn, args) calls ->
         exists t raw,
           find (fun t => eq_str (function_name messy_call) (name t))
                (available_tools (awaiting messy_call))
           = Some t
           /\ fn = name t
           /\ arguments messy_call = VDict raw
           /\ (forall k, In k (keys args) -> In k (map fst (properties t)))
           /\ (forall k v, In (k, v) args ->
                 In k (keys (convert_argument_types idle_env
                         (map_include_items
                            (apply_aliases param_aliases (map fst (properties t))
                               (inject_course_id
                                  (current_course_id (awaiting messy_call))
                                  (map fst (properties t)) raw)))
                         (properties t)))).
Proof.
  apply (executor_arguments_declared idle_env (awaiting messy_call) "Yes" messy_call);
    reflexivity.
Defined.

(** ** C5: normalising twice *)

(** C5, as stated, fails: with the sidebar's course set to 42 and a schema
    that declares [course_id] as an integer, the raw value ["0"] is kept by
    the injection step and converted to [0]; a second pass sees a falsy
    [course_id] and injects 42. *)
Lemma normalize_twice_differs :
  let props := properties get_module_tool in
  let raw := [("course_id", VStr "0")] in
  normalize idle_env (VInt 42) props raw = [("course_id", VInt 0)]
  /\ normalize idle_env (VInt 42) props (normalize idle_env (VInt 42) props raw)
     = [("course_id", VInt 42)]
  /\ normalize idle_env (VInt 42) props (normalize idle_env (VInt 42) props raw)
     <> normalize idle_env (VInt 42) props raw.
Proof. vm_compute. repeat split. discriminate. Qed.

(** C5, amended.  For every schema, alias table, sidebar course and raw
    arguments, normalising the normaliser's output gives the same mapping
    again, provided the injection step does not fire on that output (no
    course is set in the sidebar, or the schema does not declare
    [course_id], or the normalised [course_id] is truthy). *)
Theorem normalize_idempotent_unless_injected :
  forall table E course props raw,
    let out := normalize_with table E course props raw in
    (truthy course && mem "course_id" (map fst props)
     && negb (truthy (py_get out "course_id"))) = false ->
    normalize_with table E course props out = out.
Proof.
  intros table E course props raw out H.
  apply (normalize_with_stable table E course props raw H).
Qed.

Lemma normalize_idempotent_unless_injected_witness :
  let raw := [("subject", VStr "Hello"); ("course_id", VStr "12");
              ("published", VStr "Yes"); ("include_items", VBool true)] in
  let out := normalize idle_env (VInt 42) (properties create_page_tool) raw in
  out = [("course_id", VInt 12); ("published", VBool true); ("title", VStr "Hello")]
  /\ normalize idle_env (VInt 42) (properties create_page_tool) out = out.
Proof.
  split; [reflexivity|].
  apply (normalize_idempotent_unless_injected param_aliases idle_env (VInt 42)
           (properties create_page_tool)
           [("subject", VStr "Hello"); ("course_id", VStr "12");
            ("published", VStr "Yes"); ("include_items", VBool true)]).
  reflexivity.
Defined.

(** ** C8: the rewrite of [include_items] *)

Lemma include_items_requested_spec (v : pyval) :
  include_items_requested v = true <->
  eq_True v = true \/ v = VStr "true" \/ v = VStr "True" \/ v = VStr "1".
Proof.
  unfold include_items_requested, in_strs. rewrite orb_true_iff, existsb_exists.
  split.
  - intros [H|(s & Hin & Hs)]; [now left|right].
    destruct v; try discriminate. simpl in Hs. apply String.eqb_eq in Hs as ->.
    destruct Hin as [ <- | [ <- | [ <- | [] ] ] ]; auto.
  - intros [H|H]; [now left|right].
    destruct H as [ -> | [ -> | -> ] ];
      [exists "true"|exists "True"|exists "1"]; simpl; auto.
Qed.

(** C8, as stated, fails: an [include_items] that is [False] is removed as
    well, also for [list_modules], whose schema declares it; and an existing
    [include] is replaced, not extended. *)
Lemma include_items_false_removed :
  map_include_items [("course_id", VInt 5); ("include_items", VBool false)]
  = [("course_id", VInt 5)]
  /\ normalize idle_env VNone (properties list_modules_tool)
       [("course_id", VInt 5); ("include_items", VBool false)]
     = [("course_id", VInt 5)]
  /\ map_include_items
       [("include", VList [VStr "syllabus"]); ("include_items", VStr "True")]
     = [("include", VList [VStr "items"])].
Proof. vm_compute. repeat split. Qed.

(** C8, amended.  A parameter named [include_items] is removed whenever it
    is present, whatever its value.  [include] is set to the one-element
    list ["items"], replacing any earlier value, exactly when the value of
    [include_items] equals [True], ['true'], ['True'] or ['1'] (Python
    equality, so the numbers 1 and 1.0 count as [True]); for any other value
    [include] is left as it was.  The other parameters are untouched, and
    without [include_items] nothing changes. *)
Theorem include_items_rewrite :
  forall (a : dict) (v : pyval),
    dget a "include_items" = Some v ->
    let a' := map_include_items a in
    dget a' "include_items" = None
    /\ ((eq_True v = true \/ v = VStr "true" \/ v = VStr "True" \/ v = VStr "1") ->
        dget a' "include" = Some (VList [VStr "items"]))
    /\ (~ (eq_True v = true \/ v = VStr "true" \/ v = VStr "True" \/ v = VStr "1") ->
        dget a' "include" = dget a "include")
    /\ (forall k, k <> "include_items" -> k <> "include" -> dget a' k = dget a k).
Proof.
  intros a v Hg a'. split; [|split; [|split]].
  - apply dget_not_key, include_items_removed.
  - intros Hv. apply include_items_requested_spec in Hv.
    unfold a', map_include_items. rewrite Hg, Hv. apply dget_dset_same.
  - intros Hv. unfold a', map_include_items. rewrite Hg.
    destruct (include_items_requested v) eqn:Hr.
    + exfalso. now apply Hv, include_items_requested_spec.
    + now apply dget_dremove_other.
  - intros k Hk1 Hk2. unfold a', map_include_items. rewrite Hg.
    destruct (include_items_requested v).
    + rewrite dget_dset_other by congruence. apply dget_dremove_other. congruence.
    + apply dget_dremove_other. congruence.
Qed.

Lemma include_items_rewrite_witness :
  let a := [("course_id", VInt 5); ("include_items", VInt 1)] in
  let a' := map_include_items a in
  dget a' "include_items" = None
  /\ ((eq_True (VInt 1) = true \/ VInt 1 = VStr "true" \/ VInt 1 = VStr "True"
       \/ VInt 1 = VStr "1") ->
      dget a' "include" = Some (VList [VStr "items"]))
  /\ (~ (eq_True (VInt 1) = true \/ VInt 1 = VStr "true" \/ VInt 1 = VStr "True"
         \/ VInt 1 = VStr "1") ->
      dget a' "include" = dget a "include")
  /\ (forall k, k <> "include_items" -> k <> "include" -> dget a' k = dget a k).
Proof.
  apply (include_items_rewrite [("course_id", VInt 5); ("include_items", VInt 1)] (VInt 1)).
  reflexivity.
Defined.

(** ** C9: a reply that is neither yes nor no

    The [else] branch of lines 403-406 only issues a warning, which the
    rerun of line 511 wipes; it misses the append of the operator's message
    that the branches of lines 254, 386 and 410 start with. *)

(** C9.  The handler drops the ambiguous turn.  The reply "maybe" to a
    pending confirmation leaves the pending call as it was, as the claim
    says, but it is not appended to the history: the history is what it
    was and holds no operator message "maybe".  The sibling branches do
    record the operator's turn first thing: "no" and "yes" to the same
    pending call are in the history afterwards, and so is "maybe" when
    nothing is pending. *)
Lemma unclear_reply_not_recorded :
  pending_confirmation (render_chat idle_env (awaiting welcome_call) "maybe")
  = Some welcome_call
  /\ messages (render_chat idle_env (awaiting welcome_call) "maybe")
     = messages (awaiting welcome_call)
  /\ ~ In (user "maybe") (messages (render_chat idle_env (awaiting welcome_call) "maybe"))
  /\ In (user "no") (messages (render_chat idle_env (awaiting welcome_call) "no"))
  /\ In (user "yes") (messages (render_chat idle_env (awaiting welcome_call) "yes"))
  /\ In (user "maybe") (messages (render_chat idle_env (initial_session VNone) "maybe")).
Proof.
  split; [reflexivity|]. split; [reflexivity|]. split.
  - vm_compute. intros [H|[H|[]]]; discriminate H.
  - vm_compute. intuition.
Qed.

(** The branch of lines 403-406 for every input: when the operator's reply
    to a pending confirmation is neither an affirmation nor a rejection,
    the session is left as it was, so nothing is appended to the history
    and no call is made. *)
Theorem unclear_reply_changes_nothing :
  forall E st prompt p,
    pending_confirmation st = Some p ->
    mem (lower prompt) ["yes"; "y"; "confirm"; "ok"] = false ->
    mem (lower prompt) ["no"; "n"; "cancel"] = false ->
    render_chat E st prompt = st.
Proof. intros E st prompt p. apply render_chat_unclear. Qed.

Lemma unclear_reply_changes_nothing_witness :
  render_chat idle_env (awaiting welcome_call) "maybe" = awaiting welcome_call.
Proof.
  apply (unclear_reply_changes_nothing idle_env (awaiting welcome_call) "maybe"
           welcome_call); reflexivity.
Defined.

(** ** C6: the fallback for listing courses *)

(** C6.  When nothing is pending, the operator's message contains both
    "list" and "course" in any letter case, and no tool call is parsed from
    the model's reply, the handler calls [list_courses] once, with exactly
    [enrollment_type='teacher'] and [enrollment_state='active'], and the
    answer it records is built from the outcome of that call alone: the
    reply of the model does not occur in the resulting session. *)
Theorem list_courses_fallback :
  forall E st prompt reply,
    pending_confirmation st = None ->
    chat E (lastn 10 (messages st ++ [user prompt])%list) (available_tools st)
    = Returned reply ->
    extract_tool_call E reply = None ->
    contains "list" (lower prompt) = true ->
    contains "course" (lower prompt) = true ->
    render_chat E st prompt
    = {| messages :=
           (messages st
            ++ [user prompt;
                assistant
                  (courses_text E
                     (executor E (invocations st) "list_courses"
                        [("enrollment_type", VStr "teacher");
                         ("enrollment_state", VStr "active")]))])%list;
         pending_confirmation := None;
         current_course_id := current_course_id st;
         available_tools := available_tools st;
         invocations :=
           (invocations st
            ++ [("list_courses",
                 [("enrollment_type", VStr "teacher");
                  ("enrollment_state", VStr "active")])])%list |}.
Proof.
  intros E st prompt reply Hp Hc Hx Hl Hco.
  rewrite render_chat_idle; [|exact Hp|].
  - rewrite (process_message_fallback E st prompt reply Hc Hx Hl Hco).
    unfold update. now rewrite Hp.
  - apply (contains_not_empty "list"); [discriminate|exact Hl].
Qed.

Lemma list_courses_fallback_witness :
  let E := scripted_env (Returned "You teach Algebra and I have created Physics.")
             (Returned (VList [VDict [("name", VStr "Geometry"); ("id", VInt 7)]])) in
  render_chat E (initial_session VNone) "Please LIST my Courses"
  = {| messages :=
         [user "Please LIST my Courses";
          assistant ("✅ Courses:" ++ nl ++ nl ++ "- Geometry (ID: 7)")];
       pending_confirmation := None;
       current_course_id := VNone;
       available_tools := catalog;
       invocations :=
         [("list_courses",
           [("enrollment_type", VStr "teacher"); ("enrollment_state", VStr "active")])] |}.
Proof.
  intros E.
  apply (list_courses_fallback E (initial_session VNone) "Please LIST my Courses"
           "You teach Algebra and I have created Physics."); reflexivity.
Defined.

(** ** C7: the pending call after a confirmation or a failed parse *)

(** C7, as stated, fails: no substring of the reply decodes to a tool call
    whose [tool] is a string and whose [parameters] are an object, yet the
    turn stores a pending action, made of the number 1 and the number 2. *)
Lemma untyped_call_becomes_pending :
  let E := scripted_env (Returned untyped_reply) (Returned (VList [])) in
  holds_valid_call E untyped_reply = false
  /\ pending_confirmation (render_chat E (initial_session VNone) "Create a page")
     = Some {| function_name := VInt 1; arguments := VInt 2 |}.
Proof. vm_compute. split; reflexivity. Qed.

(** C7, amended.  After the operator confirms, nothing is pending any more,
    whatever the pending call, the catalog, the guard or the Canvas client
    did with it; and when nothing is pending, a turn whose reply yields no
    tool call that the extractor accepts (the chat service failed, no
    substring between braces decoded to an object with the keys [tool] and
    [parameters], or the decoder raised during the scan) leaves nothing
    pending. *)
Theorem pending_cleared_or_never_set :
  (forall E st prompt p,
      pending_confirmation st = Some p ->
      mem (lower prompt) affirmations = true ->
      pending_confirmation (render_chat E st prompt) = None)
  /\ (forall E st prompt,
         pending_confirmation st = None ->
         (exists msg,
             chat E (lastn 10 (messages st ++ [user prompt])%list) (available_tools st)
             = Raised msg)
         \/ (exists reply,
                chat E (lastn 10 (messages st ++ [user prompt])%list) (available_tools st)
                = Returned reply
                /\ extract_tool_call E reply = None) ->
         pending_confirmation (render_chat E st prompt) = None)
  /\ (forall E text msg,
         scan_starts E text (brace_indices 0 text) = Aborted msg ->
         extract_tool_call E text = None).
Proof.
  split; [|split].
  - intros E st prompt p Hp Hyes.
    rewrite (render_chat_confirm E st prompt p Hp Hyes).
    apply confirm_spec.
  - intros E st prompt Hp Hchat. unfold render_chat.
    destruct (String.eqb prompt EmptyString); [exact Hp|].
    rewrite Hp. now rewrite process_message_no_call.
  - apply extract_aborted.
Qed.

Lemma pending_cleared_or_never_set_witness :
  pending_confirmation
    (render_chat (scripted_env (Returned welcome_reply) (Raised "Canvas API error: 401"))
       (awaiting welcome_call) "ok") = None
  /\ pending_confirmation
       (render_chat (scripted_env (Returned "{not json, no tool}") (Returned (VList [])))
          (initial_session VNone) "hello") = None.
Proof.
  destruct pending_cleared_or_never_set as (Hclear & Hnever & _). split.
  - apply (Hclear _ _ "ok" welcome_call); reflexivity.
  - apply Hnever; [reflexivity|]. right. exists "{not json, no tool}".
    split; reflexivity.
Defined.

(** The four outcomes of a confirmed call, each leaving nothing pending:
    the call succeeds, the guard refuses an argument, the tool is unknown,
    the Canvas client fails. *)
Example every_outcome_clears :
  let ok := scripted_env (Returned welcome_reply) (Returned (VList [])) in
  let failing := scripted_env (Returned welcome_reply) (Raised "Request failed: timeout") in
  let refused :=
    {| function_name := VStr "create_page";
       arguments := VDict [("course_id", VInt 5); ("title", VStr "<TITLE>")] |} in
  let unknown := {| function_name := VStr "frobnicate"; arguments := VDict [] |} in
  map (fun st => (pending_confirmation st, List.length (invocations st)))
      [render_chat ok (awaiting welcome_call) "yes";
       render_chat ok (awaiting refused) "yes";
       render_chat ok (awaiting unknown) "yes";
       render_chat failing (awaiting welcome_call) "yes"]
  = [(None, 1); (None, 0); (None, 0); (None, 1)].
Proof. reflexivity. Qed.

(** ** C1: the confirmation cycle *)

(** C1, as stated, fails: after a well-formed tool call that names no tool
    of the catalog, or whose title is a placeholder, the turn "yes" returns
    to the idle state without any call to the Canvas client. *)
Lemma yes_without_invocation :
  let unknown := scripted_env (Returned unknown_reply) (Returned (VList [])) in
  let placeholder := scripted_env (Returned placeholder_reply) (Returned (VList [])) in
  (pending_confirmation (run unknown (initial_session VNone) ["do it"])
   = Some {| function_name := VStr "frobnicate"; arguments := VDict [] |}
   /\ pending_confirmation (run unknown (initial_session VNone) ["do it"; "yes"]) = None
   /\ invocations (run unknown (initial_session VNone) ["do it"; "yes"]) = [])
  /\ (pending_confirmation (run placeholder (initial_session VNone) ["do it"])
      = Some {| function_name := VStr "create_page";
                arguments := VDict [("course_id", VInt 5); ("title", VStr "<TITLE>")] |}
      /\ pending_confirmation (run placeholder (initial_session VNone) ["do it"; "yes"])
         = None
      /\ invocations (run placeholder (initial_session VNone) ["do it"; "yes"]) = []).
Proof. vm_compute. repeat split. Qed.

(** C1, amended.  Started with nothing pending, a turn whose reply holds a
    tool call makes no call to the Canvas client and stores that call as
    the pending one.  A following turn equal to "yes" in any letter case
    leaves nothing pending and makes exactly one call when the pending call
    names a tool of the catalog, its arguments are a dictionary and the
    normalised arguments pass the placeholder guard and the event test, and
    no call otherwise.  A turn equal to "no" leaves nothing pending and
    makes no call.  A turn equal to "maybe" leaves the same call pending
    and makes no call. *)
Theorem confirmation_cycle :
  forall E st prompt reply p,
    pending_confirmation st = None ->
    prompt <> EmptyString ->
    chat E (lastn 10 (messages st ++ [user prompt])%list) (available_tools st)
    = Returned reply ->
    extract_tool_call E reply = Some p ->
    let st1 := render_chat E st prompt in
    invocations st1 = invocations st
    /\ pending_confirmation st1 = Some p
    /\ (forall yes, lower yes = "yes" ->
          pending_confirmation (render_chat E st1 yes) = None
          /\ invocations (render_chat E st1 yes)
             = (invocations st1
                ++ match accepted_call E st1 p with
                   | Some (t, filtered_args) => [(name t, filtered_args)]
                   | None => []
                   end)%list)
    /\ (forall no, lower no = "no" ->
          pending_confirmation (render_chat E st1 no) = None
          /\ invocations (render_chat E st1 no) = invocations st1)
    /\ (forall maybe, lower maybe = "maybe" ->
          pending_confirmation (render_chat E st1 maybe) = Some p
          /\ invocations (render_chat E st1 maybe) = invocations st1).
Proof.
  intros E st prompt reply p Hp Hne Hc Hx st1.
  destruct (process_message_proposal E st prompt reply p Hc Hx) as [Hpend Hinv].
  assert (Hst1 : st1 = process_message E st prompt)
    by (apply render_chat_idle; assumption).
  rewrite <- Hst1 in Hpend, Hinv.
  split; [exact Hinv|]. split; [exact Hpend|]. split; [|split].
  - intros yes Hyes.
    assert (Hm : mem (lower yes) affirmations = true) by now rewrite Hyes.
    rewrite (render_chat_confirm E st1 yes p Hpend Hm).
    destruct (confirm_spec E st1 yes p) as (Hnone & Hcalls & _).
    split; [exact Hnone|exact Hcalls].
  - intros no Hno.
    assert (Hm : mem (lower no) rejections = true) by now rewrite Hno.
    assert (Hm' : mem (lower no) affirmations = false) by now rewrite Hno.
    rewrite (render_chat_cancel E st1 no p Hpend Hm Hm').
    split; [reflexivity|apply app_nil_r].
  - intros maybe Hmaybe.
    assert (Hm : mem (lower maybe) affirmations = false) by now rewrite Hmaybe.
    assert (Hm' : mem (lower maybe) rejections = false) by now rewrite Hmaybe.
    rewrite (render_chat_unclear E st1 maybe p Hpend Hm Hm').
    split; [exact Hpend|reflexivity].
Qed.

Lemma confirmation_cycle_witness :
  let st1 := render_chat idle_env (initial_session VNone) "Create a welcome page" in
  invocations st1 = []
  /\ pending_confirmation st1 = Some welcome_call
  /\ (forall yes, lower yes = "yes" ->
        pending_confirmation (render_chat idle_env st1 yes) = None
        /\ invocations (render_chat idle_env st1 yes)
           = (invocations st1
              ++ match accepted_call idle_env st1 welcome_call with
                 | Some (t, filtered_args) => [(name t, filtered_args)]
                 | None => []
                 end)%list)
  /\ (forall no, lower no = "no" ->
        pending_confirmation (render_chat idle_env st1 no) = None
        /\ invocations (render_chat idle_env st1 no) = invocations st1)
  /\ (forall maybe, lower maybe = "maybe" ->
        pending_confirmation (render_chat idle_env st1 maybe) = Some welcome_call
        /\ invocations (render_chat idle_env st1 maybe) = invocations st1).
Proof.
  apply (confirmation_cycle idle_env (initial_session VNone) "Create a welcome page"
           welcome_reply welcome_call); try reflexivity.
  discriminate.
Defined.

(** The call made in the example: one call, with the arguments of the
    reply. *)
Example confirmation_cycle_run :
  invocations (run idle_env (initial_session VNone) ["Create a welcome page"; "YES"])
  = [("create_page", [("course_id", VInt 5); ("title", VStr "Welcome")])]
  /\ invocations (run idle_env (initial_session VNone) ["Create a welcome page"; "No"])
     = []
  /\ pending_confirmation
       (run idle_env (initial_session VNone) ["Create a welcome page"; "maybe"])
     = Some welcome_call.
Proof. vm_compute. repeat split. Qed.

(** ** C3: the extraction of the tool call *)

(** C3, as stated, fails: the scan accepts an object whose [tool] is a
    number and whose [parameters] are no object. *)
Lemma extraction_ignores_types :
  exists p,
    extract_tool_call idle_env untyped_reply = Some p
    /\ is_str (function_name p) = false
    /\ is_dict (arguments p) = false.
Proof.
  exists {| function_name := VInt 1; arguments := VInt 2 |}.
  vm_compute. repeat split.
Qed.

(** C3, amended.  For a reply that contains an opening brace and the
    substring "tool", the scan goes through the opening braces from left to
    right and, for each, through the closing braces from right to left, and
    returns the first substring that decodes to a JSON object with the keys
    [tool] and [parameters], whatever the types of their values; what it
    returns is always such a first substring; when no substring between an
    opening and a closing brace is accepted it returns none; and on the
    reply of the example it returns [create_page] with [course_id] 5 and
    [title] "Welcome". *)
Theorem extraction_first_match :
  (forall E text s e d,
      contains "{" text = true -> contains "tool" text = true ->
      candidate text s e ->
      accepts E (slice text s e) d ->
      (forall s' e', candidate text s' e' -> tried_before s' e' s e ->
                     rejects E (slice text s' e')) ->
      extract_tool_call E text
      = Some {| function_name := py_get d "tool"; arguments := py_get d "parameters" |})
  /\ (forall E text p,
         extract_tool_call E text = Some p ->
         contains "{" text = true /\ contains "tool" text = true
         /\ exists s e d,
              candidate text s e /\ accepts E (slice text s e) d
              /\ p = {| function_name := py_get d "tool";
                        arguments := py_get d "parameters" |}
              /\ forall s' e', candidate text s' e' -> tried_before s' e' s e ->
                               rejects E (slice text s' e'))
  /\ (forall E text,
         (forall s e d, candidate text s e -> ~ accepts E (slice text s e) d) ->
         extract_tool_call E text = None)
  /\ (forall E,
         json_loads E = loads ->
         extract_tool_call E welcome_reply
         = Some {| function_name := VStr "create_page";
                   arguments := VDict [("course_id", VInt 5); ("title", VStr "Welcome")] |}).
Proof.
  split; [|split; [|split]].
  - intros E text s e d. apply extract_first.
  - intros E text p. apply extract_sound.
  - intros E text. apply extract_none.
  - intros [] Hl. simpl in Hl. subst. vm_compute. reflexivity.
Qed.

Lemma extraction_first_match_witness :
  extract_tool_call idle_env welcome_reply = Some welcome_call
  /\ extract_tool_call idle_env "Happy to help. Which course do you mean?" = None.
Proof.
  destruct extraction_first_match as (_ & _ & Hnone & Hexample). split.
  - apply Hexample. reflexivity.
  - apply Hnone. intros s e d (Hopen & _). vm_compute in Hopen.
    do 41 (destruct s as [|s]; [discriminate Hopen|]). discriminate Hopen.
Defined.

(* ================================================================= *)
(** * Further properties of the chat handler *)

Lemma confirm_update (E : env) (st : session) (prompt : string) (p : pending) :
  exists answer,
    confirm E st prompt p
    = update st [user prompt; assistant answer] (calls_of E st p) None.
Proof.
  unfold confirm, calls_of, accepted_call.
  destruct (existsb (eq_str (function_name p)) (map name (available_tools st))) eqn:Hex;
    simpl.
  - destruct (find _ (available_tools st)) as [t|]; simpl; [|eauto].
    unfold run_tool. destruct (arguments p); simpl; eauto.
    destruct (detect_placeholders _); simpl; eauto.
    destruct (invalid_event _ _); simpl; eauto.
    destruct (executor E _ _ _); simpl; eauto.
  - rewrite (find_tool_names _ _ Hex). eauto.
Qed.

Lemma calls_of_short (E : env) (st : session) (p : pending) :
  List.length (calls_of E st p) <= 1.
Proof.
  unfold calls_of. destruct (accepted_call E st p) as [[t fa]|]; simpl; lia.
Qed.

(** What one turn does to the session. *)
Lemma render_chat_cases (E : env) (st : session) (prompt : string) :
  render_chat E st prompt = st
  \/ exists answer calls p',
       render_chat E st prompt = update st [user prompt; assistant answer] calls p'
       /\ (calls = []
           \/ (pending_confirmation st = None /\ calls = [list_courses_call]
               /\ asks_for_courses prompt = true)
           \/ (exists p, pending_confirmation st = Some p
                         /\ affirms prompt = true /\ calls = calls_of E st p)).
Proof.
  unfold render_chat.
  destruct (String.eqb prompt EmptyString); [now left|].
  destruct (pending_confirmation st) as [p|] eqn:Hp.
  - destruct (mem (lower prompt) affirmations) eqn:Hyes.
    + right. destruct (confirm_update E st prompt p) as [answer Heq].
      exists answer, (calls_of E st p), None. split; [exact Heq|].
      right. right. exists p. now repeat split.
    + destruct (mem (lower prompt) rejections); [|now left].
      right. unfold cancel. do 3 eexists. split; [reflexivity|now left].
  - right. unfold process_message.
    destruct (chat E _ _) as [reply|msg].
    + destruct (extract_tool_call E reply) as [p|].
      * do 3 eexists. split; [reflexivity|now left].
      * destruct (contains "list" (lower prompt) && contains "course" (lower prompt))
          eqn:Hl.
        -- do 3 eexists. split; [reflexivity|]. right. left. now repeat split.
        -- do 3 eexists. split; [reflexivity|now left].
    + do 3 eexists. split; [reflexivity|now left].
Qed.

(** X1.  A turn never rewrites the session: the sidebar's course and the
    catalog are left alone, the history grows by nothing or by exactly the
    operator's prompt followed by one answer of the assistant, and at most
    one call is made to the Canvas client. *)
Theorem turn_extends_session :
  forall E st prompt,
    current_course_id (render_chat E st prompt) = current_course_id st
    /\ available_tools (render_chat E st prompt) = available_tools st
    /\ (exists new,
           messages (render_chat E st prompt) = (messages st ++ new)%list
           /\ (new = [] \/ exists answer, new = [user prompt; assistant answer]))
    /\ (exists calls,
           invocations (render_chat E st prompt) = (invocations st ++ calls)%list
           /\ List.length calls <= 1).
Proof.
  intros E st prompt.
  destruct (render_chat_cases E st prompt) as [->|(answer & calls & p' & -> & Hc)].
  - repeat split.
    + exists []. split; [now rewrite app_nil_r|now left].
    + exists []. split; [now rewrite app_nil_r|simpl; lia].
  - repeat split.
    + eexists. split; [reflexivity|]. right. now exists answer.
    + exists calls. split; [reflexivity|].
      destruct Hc as [->|[(_ & -> & _)|(p & _ & _ & ->)]];
        simpl; try lia. apply calls_of_short.
Qed.

(** X2.  No call reaches the Canvas client without the operator's word:
    a call made in a turn is either the fixed [list_courses] call of the
    fallback, made while nothing is pending for a prompt that asks to list
    courses, or the accepted call of the pending action, made for a prompt
    that is an affirmation. *)
Theorem calls_need_confirmation :
  forall E st prompt fn args,
    In (fn, args) (invocations (render_chat E st prompt)) ->
    In (fn, args) (invocations st)
    \/ (pending_confirmation st = None
        /\ contains "list" (lower prompt) = true
        /\ contains "course" (lower prompt) = true
        /\ fn = "list_courses"
        /\ args = [("enrollment_type", VStr "teacher");
                   ("enrollment_state", VStr "active")])
    \/ (exists p t,
           pending_confirmation st = Some p
           /\ mem (lower prompt) ["yes"; "y"; "confirm"; "ok"] = true
           /\ accepted_call E st p = Some (t, args)
           /\ fn = name t).
Proof.
  intros E st prompt fn args Hin.
  destruct (render_chat_cases E st prompt) as [Heq|(answer & calls & p' & Heq & Hc)];
    rewrite Heq in Hin; [now left|].
  simpl in Hin. apply in_app_or in Hin as [Hin|Hin]; [now left|].
  destruct Hc as [->|[(Hp & -> & Hask)|(p & Hp & Hyes & ->)]].
  - destruct Hin.
  - right. left. destruct Hin as [Hin|[]]. injection Hin as <- <-.
    apply andb_true_iff in Hask as [Hl Hc]. now repeat split.
  - right. right. unfold calls_of in Hin.
    destruct (accepted_call E st p) as [[t fa]|] eqn:Ha; [|destruct Hin].
    destruct Hin as [Hin|[]]. injection Hin as <- <-. now exists p, t.
Qed.

Lemma calls_need_confirmation_witness :
  In ("create_page", [("course_id", VInt 5); ("title", VStr "Welcome")])
     (invocations (awaiting welcome_call))
  \/ (pending_confirmation (awaiting welcome_call) = None
      /\ contains "list" (lower "OK") = true
      /\ contains "course" (lower "OK") = true
      /\ "create_page" = "list_courses"
      /\ [("course_id", VInt 5); ("title", VStr "Welcome")]
         = [("enrollment_type", VStr "teacher"); ("enrollment_state", VStr "active")])
  \/ (exists p t,
         pending_confirmation (awaiting welcome_call) = Some p
         /\ mem (lower "OK") ["yes"; "y"; "confirm"; "ok"] = true
         /\ accepted_call idle_env (awaiting welcome_call) p
            = Some (t, [("course_id", VInt 5); ("title", VStr "Welcome")])
         /\ "create_page" = name t).
Proof.
  apply (calls_need_confirmation idle_env (awaiting welcome_call) "OK").
  left. reflexivity.
Defined.

Lemma run_cons (E : env) (st : session) (prompt : string) (prompts : list string) :
  run E st (prompt :: prompts) = run E (render_chat E st prompt) prompts.
Proof. reflexivity. Qed.

(** X3.  Over any sequence of prompts the history and the log of calls only
    grow, by at most two messages per prompt, and the number of calls made
    is at most the number of prompts that are an affirmation plus the number
    of prompts that ask to list courses; the sidebar's course and the
    catalog stay what they were. *)
Theorem run_calls_bounded :
  forall E prompts st,
    current_course_id (run E st prompts) = current_course_id st
    /\ available_tools (run E st prompts) = available_tools st
    /\ exists new calls,
         messages (run E st prompts) = (messages st ++ new)%list
         /\ invocations (run E st prompts) = (invocations st ++ calls)%list
         /\ List.length new <= 2 * List.length prompts
         /\ List.length calls
            <= List.length (filter affirms prompts)
               + List.length (filter asks_for_courses prompts).
Proof.
  intros E prompts. induction prompts as [|prompt prompts IH]; intros st.
  - repeat split. exists [], []. simpl. now rewrite !app_nil_r.
  - rewrite run_cons.
    destruct (IH (render_chat E st prompt)) as (Hc & Ht & new & calls & Hm & Hi & Hn & Hl).
    rewrite Hc, Ht, Hm, Hi. clear Hc Ht Hm Hi.
    destruct (render_chat_cases E st prompt) as [->|(answer & calls0 & p' & -> & Hcase)].
    + repeat split. exists new, calls. repeat split; simpl in *; try lia.
      destruct (affirms prompt), (asks_for_courses prompt); simpl; lia.
    + repeat split.
      exists ([user prompt; assistant answer] ++ new)%list, (calls0 ++ calls)%list.
      simpl messages. simpl invocations. rewrite <- !app_assoc.
      repeat split; rewrite ?length_app; simpl in *; try lia.
      destruct Hcase as [->|[(_ & -> & Hask)|(p & _ & Hyes & ->)]].
      * simpl. destruct (affirms prompt), (asks_for_courses prompt); simpl; lia.
      * rewrite Hask. simpl. destruct (affirms prompt); simpl; lia.
      * rewrite Hyes. pose proof (calls_of_short E st p).
        simpl. destruct (asks_for_courses prompt); simpl; lia.
Qed.

(** X4.  The [event] of a confirmed [update_course] is checked after the
    normalisation: with an event outside offer, claim, conclude, delete and
    undelete the Canvas client is not called and nothing stays pending; with
    one of the five, and arguments that pass the placeholder guard, the call
    is made with the normalised arguments. *)
Theorem update_course_event_gate :
  forall E st prompt p t raw event,
    pending_confirmation st = Some p ->
    mem (lower prompt) affirmations = true ->
    function_name p = VStr "update_course" ->
    arguments p = VDict raw ->
    find (fun t => eq_str (function_name p) (name t)) (available_tools st) = Some t ->
    let filtered_args := normalize E (current_course_id st) (properties t) raw in
    dget filtered_args "event" = Some event ->
    pending_confirmation (render_chat E st prompt) = None
    /\ (in_strs event ["offer"; "claim"; "conclude"; "delete"; "undelete"] = false ->
        invocations (render_chat E st prompt) = invocations st)
    /\ (in_strs event ["offer"; "claim"; "conclude"; "delete"; "undelete"] = true ->
        detect_placeholders filtered_args = None ->
        invocations (render_chat E st prompt)
        = (invocations st ++ [(name t, filtered_args)])%list).
Proof.
  intros E st prompt p t raw event Hp Hyes Hfn Hargs Hfind fa Hev.
  rewrite (render_chat_confirm E st prompt p Hp Hyes).
  destruct (confirm_spec E st prompt p) as (Hnone & Hinv & _).
  split; [exact Hnone|]. rewrite Hinv.
  unfold calls_of, accepted_call. rewrite Hfind, Hargs. fold fa.
  assert (Hgate : invalid_event (function_name p) fa
                  = negb (in_strs event valid_events)).
  { unfold invalid_event, dmem, py_get. now rewrite Hfn, Hev. }
  rewrite Hgate. split.
  - intros Hbad. change (in_strs event valid_events = false) in Hbad.
    rewrite Hbad. destruct (detect_placeholders fa); apply app_nil_r.
  - intros Hgood Hclean. change (in_strs event valid_events = true) in Hgood.
    now rewrite Hgood, Hclean.
Qed.

Lemma update_course_event_gate_witness :
  invocations
    (render_chat idle_env
       (awaiting_with [update_course_tool] VNone
          {| function_name := VStr "update_course";
             arguments := VDict [("course_id", VInt 7); ("event", VStr "publish")] |})
       "yes") = []
  /\ invocations
       (render_chat idle_env
          (awaiting_with [update_course_tool] VNone
             {| function_name := VStr "update_course";
                arguments := VDict [("course_id", VInt 7); ("event", VStr "offer")] |})
          "yes")
     = [("update_course", [("course_id", VInt 7); ("event", VStr "offer")])].
Proof.
  split.
  - apply (proj1 (proj2
             (update_course_event_gate idle_env
                (awaiting_with [update_course_tool] VNone
                   {| function_name := VStr "update_course";
                      arguments :=
                        VDict [("course_id", VInt 7); ("event", VStr "publish")] |})
                "yes" _ update_course_tool
                [("course_id", VInt 7); ("event", VStr "publish")] (VStr "publish")
                eq_refl eq_refl eq_refl eq_refl eq_refl eq_refl))).
    reflexivity.
  - apply (proj2 (proj2
             (update_course_event_gate idle_env
                (awaiting_with [update_course_tool] VNone
                   {| function_name := VStr "update_course";
                      arguments :=
                        VDict [("course_id", VInt 7); ("event", VStr "offer")] |})
                "yes" _ update_course_tool
                [("course_id", VInt 7); ("event", VStr "offer")] (VStr "offer")
                eq_refl eq_refl eq_refl eq_refl eq_refl eq_refl)));
      reflexivity.
Defined.

Lemma lastn_snoc (A : Type) (l : list A) (m : A) :
  lastn 10 (l ++ [m])%list = (lastn 9 l ++ [m])%list.
Proof.
  unfold lastn. rewrite length_app. simpl.
  replace (List.length l + 1 - 10) with (List.length l - 9) by lia.
  rewrite skipn_app.
  replace (List.length l - 9 - List.length l) with 0 by lia.
  reflexivity.
Qed.

Lemma lastn_length (A : Type) (n : nat) (l : list A) :
  List.length (lastn n l) <= n.
Proof. unfold lastn. rewrite length_skipn. lia. Qed.

Lemma scan_ends_with_chat E service text start_idx k :
  scan_ends (with_chat E service) text start_idx k = scan_ends E text start_idx k.
Proof.
  induction k as [|k IH]; [reflexivity|]. cbn [scan_ends].
  rewrite IH. reflexivity.
Qed.

Lemma scan_starts_with_chat E service text starts :
  scan_starts (with_chat E service) text starts = scan_starts E text starts.
Proof.
  induction starts as [|i starts IH]; [reflexivity|]. cbn [scan_starts].
  now rewrite scan_ends_with_chat, IH.
Qed.

Lemma extract_with_chat E service text :
  extract_tool_call (with_chat E service) text = extract_tool_call E text.
Proof. unfold extract_tool_call. now rewrite scan_starts_with_chat. Qed.

(** X5.  A turn taken while nothing is pending asks the chat service one
    question: what it replies to the window made of the last nine messages
    of the history followed by the operator's prompt, at most ten messages,
    together with the catalog.  Any service that gives the same reply to
    that window leads to the same turn, and so does any session that agrees
    on the last nine messages, on the catalog and on the log of calls: the
    same answer is recorded, the same calls are made and the same pending
    action is left. *)
Theorem only_recent_history_matters :
  forall E service st st' prompt,
    lastn 9 (messages st) = lastn 9 (messages st') ->
    available_tools st = available_tools st' ->
    invocations st = invocations st' ->
    pending_confirmation st = None ->
    pending_confirmation st' = None ->
    let window := (lastn 9 (messages st) ++ [user prompt])%list in
    service window (available_tools st) = chat E window (available_tools st) ->
    List.length window <= 10
    /\ lastn 10 (messages st ++ [user prompt])%list = window
    /\ exists new calls p,
         render_chat E st prompt = update st new calls p
         /\ render_chat (with_chat E service) st' prompt = update st' new calls p.
Proof.
  intros E service st st' prompt Hm Ht Hi Hp Hp' window Hs.
  split; [unfold window; rewrite <- lastn_snoc; apply lastn_length|].
  split; [apply lastn_snoc|].
  unfold render_chat. rewrite Hp, Hp'.
  destruct (String.eqb prompt EmptyString).
  - exists [], [], None. unfold update. rewrite !app_nil_r.
    destruct st, st'. simpl in *. now subst.
  - unfold process_message.
    rewrite !lastn_snoc, <- Hm, <- Ht, <- Hi, Hp, Hp'.
    change (chat (with_chat E service)) with service.
    fold window. rewrite Hs.
    destruct (chat E window (available_tools st)) as [reply|msg];
      [|now do 3 eexists].
    rewrite extract_with_chat.
    destruct (extract_tool_call E reply) as [p|]; [now do 3 eexists|].
    destruct (contains "list" (lower prompt) && contains "course" (lower prompt));
      now do 3 eexists.
Qed.

Lemma only_recent_history_matters_witness :
  List.length (lastn 9 (messages (long_session "good morning")) ++ [user "hello"])%list
  <= 10
  /\ lastn 10 (messages (long_session "good morning") ++ [user "hello"])%list
     = (lastn 9 (messages (long_session "good morning")) ++ [user "hello"])%list
  /\ exists new calls p,
       render_chat idle_env (long_session "good morning") "hello"
       = update (long_session "good morning") new calls p
       /\ render_chat (with_chat idle_env (needs_ten idle_env))
            (long_session "good evening") "hello"
          = update (long_session "good evening") new calls p.
Proof.
  apply (only_recent_history_matters idle_env (needs_ten idle_env)
           (long_session "good morning") (long_session "good evening") "hello");
    reflexivity.
Defined.

Lemma append_empty_r (s : string) : s ++ EmptyString = s.
Proof. induction s as [|c s IH]; simpl; [reflexivity|now rewrite IH]. Qed.

(** X6.  When nothing is pending, no tool call is found in the reply and
    the prompt does not ask to list courses, the answer recorded is the
    reply of the model word for word, followed by the note that no action
    was executed exactly when the lower-cased reply contains one of the
    action phrases and the prompt mentions a course, page, module or
    announcement; no call is made and nothing becomes pending. *)
Theorem reply_shown_verbatim :
  forall E st prompt reply,
    pending_confirmation st = None ->
    prompt <> EmptyString ->
    chat E (lastn 10 (messages st ++ [user prompt])%list) (available_tools st)
    = Returned reply ->
    extract_tool_call E reply = None ->
    contains "list" (lower prompt) && contains "course" (lower prompt) = false ->
    exists note,
      render_chat E st prompt
      = update st [user prompt; assistant (reply ++ note)] [] None
      /\ (note = EmptyString \/ note = no_action_note)
      /\ (note = no_action_note <->
          existsb (fun phrase => contains phrase (lower reply))
            ["has been"; "successfully"; "created"; "updated"; "added"; "deleted";
             "i have"; "i will"; "i've"]
          && (contains "course" (lower prompt) || contains "page" (lower prompt)
              || contains "module" (lower prompt)
              || contains "announcement" (lower prompt)) = true).
Proof.
  intros E st prompt reply Hp Hne Hc Hx Hl.
  rewrite (render_chat_idle E st prompt Hp Hne).
  unfold process_message. rewrite Hc, Hx, Hl, Hp.
  unfold hallucination_note. simpl negb. rewrite andb_true_l.
  change action_phrases
    with ["has been"; "successfully"; "created"; "updated"; "added"; "deleted";
          "i have"; "i will"; "i've"].
  destruct (existsb _ _); simpl.
  - destruct (contains "course" (lower prompt) || contains "page" (lower prompt)
              || contains "module" (lower prompt)
              || contains "announcement" (lower prompt)).
    + exists no_action_note. split; [reflexivity|]. split; [now right|tauto].
    + exists EmptyString. rewrite append_empty_r. split; [reflexivity|].
      split; [now left|]. split; discriminate.
  - exists EmptyString. rewrite append_empty_r. split; [reflexivity|].
    split; [now left|]. split; discriminate.
Qed.

Lemma reply_shown_verbatim_witness :
  let E := scripted_env (Returned "The page has been created.") (Returned (VList [])) in
  exists note,
    render_chat E (initial_session VNone) "Add a page about cats"
    = update (initial_session VNone)
        [user "Add a page about cats";
         assistant ("The page has been created." ++ note)] [] None
    /\ (note = EmptyString \/ note = no_action_note)
    /\ (note = no_action_note <->
        existsb (fun phrase => contains phrase (lower "The page has been created."))
          ["has been"; "successfully"; "created"; "updated"; "added"; "deleted";
           "i have"; "i will"; "i've"]
        && (contains "course" (lower "Add a page about cats")
            || contains "page" (lower "Add a page about cats")
            || contains "module" (lower "Add a page about cats")
            || contains "announcement" (lower "Add a page about cats")) = true).
Proof.
  intros E.
  apply (reply_shown_verbatim E (initial_session VNone) "Add a page about cats"
           "The page has been created."); try reflexivity.
  discriminate.
Defined.

(* ================================================================= *)
(** * Further properties of the normaliser *)

Lemma dget_convert (E : env) (a : dict) (props : list (string * option string))
    (k : string) :
  dget (convert_argument_types E a props) k
  = option_map
      (fun v =>
         match lookup_prop props k with
         | Some schema => convert_value E (declared_type schema) v
         | None => v
         end)
      (dget a k).
Proof.
  unfold convert_argument_types. induction a as [|[k' v'] a IH]; [reflexivity|].
  simpl. destruct (lookup_prop props k') as [schema|] eqn:Hl; simpl;
    destruct (String.eqb_spec k' k) as [->|Hne]; simpl;
    try exact IH; now rewrite Hl.
Qed.

Lemma dget_filter_args (expected_params : list string) (a : dict) (k : string) :
  dget (filter_args expected_params a) k
  = if mem k expected_params then dget a k else None.
Proof.
  unfold filter_args. induction a as [|[k' v'] a IH]; simpl.
  - now destruct (mem k expected_params).
  - destruct (mem k' expected_params) eqn:Hm; simpl;
      destruct (String.eqb_spec k' k) as [->|Hne]; try exact IH.
    + now rewrite Hm.
    + rewrite IH. now rewrite Hm.
Qed.

Lemma lookup_prop_declared (props : list (string * option string)) (k : string) :
  mem k (map fst props) = match lookup_prop props k with Some _ => true | None => false end.
Proof.
  induction props as [|[k' schema] props IH]; [reflexivity|].
  unfold mem in *. simpl. rewrite (String.eqb_sym k k').
  destruct (String.eqb k' k); simpl; [reflexivity|exact IH].
Qed.

(** X7.  [convert_argument_types] keeps the keys and their order, and
    converts each value on its own: the value of a key the schema does not
    declare is returned as it is, the value of a declared key is converted
    after the declared type (the type [string] when the schema gives
    none). *)
Theorem coercion_is_per_key :
  forall E (a : dict) props,
    keys (convert_argument_types E a props) = keys a
    /\ forall k,
         dget (convert_argument_types E a props) k
         = match dget a k, lookup_prop props k with
           | Some v, Some (Some ty) => Some (convert_value E ty v)
           | Some v, Some None => Some (convert_value E "string" v)
           | Some v, None => Some v
           | None, _ => None
           end.
Proof.
  intros E a props. split; [apply keys_convert|].
  intros k. rewrite dget_convert.
  destruct (dget a k); simpl; [|reflexivity].
  now destruct (lookup_prop props k) as [[ty|]|].
Qed.

(** X8.  What the normaliser hands on is typed where conversion can type
    it: a parameter declared [boolean] always holds a Boolean, and a
    parameter declared [integer] never holds a string that [int] accepts. *)
Theorem normalized_values_are_typed :
  forall E course props raw k v,
    dget (normalize E course props raw) k = Some v ->
    (lookup_prop props k = Some (Some "boolean") -> exists b, v = VBool b)
    /\ (lookup_prop props k = Some (Some "integer") ->
        forall s, v = VStr s -> py_int E s = None).
Proof.
  intros E course props raw k v Hv.
  unfold normalize, normalize_with in Hv.
  rewrite dget_filter_args in Hv.
  destruct (mem k (map fst props)); [|discriminate].
  rewrite dget_convert in Hv.
  destruct (dget (map_include_items _) k) as [w|]; [|discriminate].
  simpl in Hv. injection Hv as <-. split.
  - intros ->. simpl. unfold convert_value.
    destruct w; simpl; eauto.
  - intros -> s. simpl. unfold convert_value.
    destruct w; simpl; try discriminate.
    destruct (py_int E s0) eqn:Hp; [discriminate|].
    intros Heq. injection Heq as <-. exact Hp.
Qed.

Lemma normalized_values_are_typed_witness :
  (exists b, VBool false = VBool b)
  /\ (forall s, VStr "soon" = VStr s -> py_int idle_env s = None).
Proof.
  split.
  - apply (proj1 (normalized_values_are_typed idle_env VNone
                    (properties create_page_tool)
                    [("published", VStr "maybe"); ("course_id", VStr "soon")]
                    "published" (VBool false) eq_refl)).
    reflexivity.
  - apply (proj2 (normalized_values_are_typed idle_env VNone
                    (properties create_page_tool)
                    [("published", VStr "maybe"); ("course_id", VStr "soon")]
                    "course_id" (VStr "soon") eq_refl)).
    reflexivity.
Defined.

Lemma alias_step_other (expected_params : list string) (a : dict)
    (incoming target k : string) :
  k <> incoming -> k <> target ->
  dget (alias_step expected_params a (incoming, target)) k = dget a k.
Proof.
  intros Hi Ht. unfold alias_step.
  destruct (dget a incoming) as [v|]; [|reflexivity].
  destruct (negb (mem incoming expected_params) && mem target expected_params);
    [|reflexivity].
  rewrite dget_dset_other by congruence. apply dget_dremove_other. congruence.
Qed.

Lemma alias_step_fires (expected_params : list string) (a : dict)
    (incoming target : string) (v : pyval) :
  dget a incoming = Some v ->
  mem incoming expected_params = false -> mem target expected_params = true ->
  incoming <> target ->
  dget (alias_step expected_params a (incoming, target)) target = Some v
  /\ dget (alias_step expected_params a (incoming, target)) incoming = None.
Proof.
  intros Hg Hi Ht Hne. unfold alias_step. rewrite Hg, Hi, Ht. simpl. split.
  - apply dget_dset_same.
  - rewrite dget_dset_other by congruence. apply dget_dremove_same.
Qed.

Lemma alias_step_blocked (expected_params : list string) (a : dict)
    (incoming target : string) :
  mem incoming expected_params = true \/ mem target expected_params = false ->
  alias_step expected_params a (incoming, target) = a.
Proof.
  intros H. unfold alias_step. destruct (dget a incoming); [|reflexivity].
  destruct H as [-> | ->]; [reflexivity|now rewrite andb_false_r].
Qed.

Lemma apply_aliases_other (table : list (string * string))
    (expected_params : list string) (a : dict) (k : string) :
  (forall incoming target, In (incoming, target) table -> k <> incoming /\ k <> target) ->
  dget (apply_aliases table expected_params a) k = dget a k.
Proof.
  unfold apply_aliases. revert a.
  induction table as [|[incoming target] table IH]; intros a H; [reflexivity|].
  simpl. rewrite IH.
  - apply alias_step_other; apply (H incoming target); now left.
  - intros i t Hin. apply H. now right.
Qed.

Lemma map_include_items_other (a : dict) (k : string) :
  k <> "include_items" -> k <> "include" ->
  dget (map_include_items a) k = dget a k.
Proof.
  intros H1 H2. unfold map_include_items.
  destruct (dget a "include_items") as [v|]; [|reflexivity].
  destruct (include_items_requested v).
  - rewrite dget_dset_other by congruence. apply dget_dremove_other. congruence.
  - apply dget_dremove_other. congruence.
Qed.

(** X9.  The [course_id] handed to the executor: when the schema declares
    it, it is the conversion of the raw [course_id] if that one is truthy
    or no course is set in the sidebar, and the conversion of the sidebar's
    course otherwise; an explicit truthy [course_id] is never replaced.
    When the schema does not declare it, there is none. *)
Theorem course_id_after_normalisation :
  forall E course props raw,
    dget (normalize E course props raw) "course_id"
    = match lookup_prop props "course_id" with
      | Some schema =>
          option_map (convert_value E (declared_type schema))
            (if truthy course && negb (truthy (py_get raw "course_id"))
             then Some course
             else dget raw "course_id")
      | None => None
      end.
Proof.
  intros E course props raw. unfold normalize, normalize_with.
  rewrite dget_filter_args, lookup_prop_declared.
  destruct (lookup_prop props "course_id") as [schema|] eqn:Hl; [|reflexivity].
  rewrite dget_convert, Hl.
  rewrite map_include_items_other by discriminate.
  rewrite apply_aliases_other.
  - unfold inject_course_id. rewrite lookup_prop_declared, Hl, andb_true_r.
    destruct (truthy course); simpl; [|reflexivity].
    destruct (truthy (py_get raw "course_id")); simpl; [reflexivity|].
    now rewrite dget_dset_same.
  - intros incoming target Hin.
    repeat (destruct Hin as [Hin|Hin];
            [injection Hin as <- <-; split; discriminate|]).
    destruct Hin.
Qed.

(** X10.  The aliases do not chain and overwrite what they target.  When
    the schema declares [body] and not [content], the value given as
    [content] ends up as [body], replacing any [body] given, and is not
    moved on to [message]; when the schema declares [message] and not
    [body], the value given as [body] ends up as [message]. *)
Theorem alias_rewrites_once :
  forall expected_params (a : dict) v,
    (dget a "content" = Some v ->
     mem "content" expected_params = false ->
     mem "body" expected_params = true ->
     dget (apply_aliases param_aliases expected_params a) "body" = Some v
     /\ dget (apply_aliases param_aliases expected_params a) "content" = None
     /\ dget (apply_aliases param_aliases expected_params a) "message"
        = dget a "message")
    /\ (dget a "body" = Some v ->
        mem "body" expected_params = false ->
        mem "message" expected_params = true ->
        dget (apply_aliases param_aliases expected_params a) "message" = Some v
        /\ dget (apply_aliases param_aliases expected_params a) "body" = None).
Proof.
  intros expected_params a v. unfold apply_aliases, param_aliases. cbn [fold_left].
  split.
  - intros Hg Hc Hb.
    destruct (alias_step_fires expected_params a "content" "body" v Hg Hc Hb)
      as [H1 H2]; [discriminate|].
    set (a1 := alias_step expected_params a ("content", "body")) in *.
    set (a2 := alias_step expected_params a1 ("subject", "title")).
    rewrite (alias_step_blocked expected_params a2 "body" "message") by now left.
    rewrite !(alias_step_other expected_params a2 "is_published" "published")
      by discriminate.
    unfold a2. rewrite !alias_step_other by discriminate.
    split; [exact H1|]. split; [exact H2|].
    unfold a1. apply alias_step_other; discriminate.
  - intros Hg Hb Hm.
    rewrite (alias_step_blocked expected_params a "content" "body") by now right.
    set (a2 := alias_step expected_params a ("subject", "title")).
    assert (Hg2 : dget a2 "body" = Some v)
      by (unfold a2; rewrite alias_step_other by discriminate; exact Hg).
    destruct (alias_step_fires expected_params a2 "body" "message" v Hg2 Hb Hm)
      as [H1 H2]; [discriminate|].
    rewrite !(alias_step_other expected_params _ "is_published" "published")
      by discriminate.
    now split.
Qed.

Lemma alias_rewrites_once_witness :
  let a := [("body", VStr "old"); ("content", VStr "<p>hi</p>")] in
  dget (apply_aliases param_aliases ["course_id"; "title"; "body"] a) "body"
  = Some (VStr "<p>hi</p>")
  /\ dget (apply_aliases param_aliases ["course_id"; "title"; "body"] a) "content" = None
  /\ dget (apply_aliases param_aliases ["course_id"; "title"; "body"] a) "message"
     = dget a "message".
Proof.
  intros a.
  apply (proj1 (alias_rewrites_once ["course_id"; "title"; "body"] a (VStr "<p>hi</p>")));
    reflexivity.
Defined.

(** X11.  [include_items] never reaches the Canvas client, and for
    [list_modules], whose schema declares [course_id] and [include_items]
    only, neither does [include]: whatever the raw arguments and the
    sidebar's course, the normalised arguments are bound without an unknown
    keyword and the request for the modules carries no parameter, so the
    items of the modules are never asked for; without a [course_id] the call
    raises. *)
Theorem list_modules_never_asks_for_items :
  forall E course raw,
    let args := normalize E course (properties list_modules_tool) raw in
    dget args "include_items" = None
    /\ dget args "include" = None
    /\ call_list_modules E args
       = match dget args "course_id" with
         | Some course_id =>
             Returned {| verb := "GET";
                         endpoint := "courses/" ++ fmt E course_id ++ "/modules";
                         params := [] |}
         | None => Raised (exception_text E (VDict args) "list_modules")
         end.
Proof.
  intros E course raw args.
  assert (Hkeys : forall k, In k (keys args) -> k = "course_id").
  { intros k Hin.
    assert (Hd : In k ["course_id"; "include_items"])
      by (apply (normalize_with_declared param_aliases E course
                   (properties list_modules_tool) raw k Hin)).
    destruct Hd as [<-|[<-|[]]]; [reflexivity|]. exfalso.
    unfold args, normalize, normalize_with in Hin.
    apply filter_args_subset in Hin. rewrite keys_convert in Hin.
    now apply include_items_removed in Hin. }
  assert (Hnone : forall k, k <> "course_id" -> dget args k = None).
  { intros k Hk. apply dget_not_key. intros Hin. now apply Hk, Hkeys. }
  assert (H1 : dget args "include_items" = None) by (apply Hnone; discriminate).
  assert (H2 : dget args "include" = None) by (apply Hnone; discriminate).
  split; [exact H1|]. split; [exact H2|].
  unfold call_list_modules.
  assert (Hall : forallb (fun k => mem k ["course_id"; "include"; "include_items"])
                   (keys args) = true).
  { apply forallb_forall. intros k Hin. now rewrite (Hkeys k Hin). }
  rewrite Hall. destruct (dget args "course_id") as [c|]; [|reflexivity].
  unfold list_modules, py_get. now rewrite H1, H2.
Qed.

(* ================================================================= *)
(** * Further properties of the placeholder guard *)

Lemma detect_placeholders_app (a b : dict) :
  detect_placeholders (a ++ b)%list
  = match detect_placeholders a with
    | Some msg => Some msg
    | None => detect_placeholders b
    end.
Proof.
  induction a as [|[k v] a IH]; [reflexivity|]. simpl.
  destruct v; try exact IH.
  destruct (has_marker s); [reflexivity|].
  destruct (bare_tag s); [reflexivity|exact IH].
Qed.

(** X12.  The guard works through the arguments in their order and stops
    at the first offending one: arguments that pass it before an offending
    argument do not change the message, which names that argument's key and
    value; the marker message takes precedence over the single-tag message;
    and a mapping passes exactly when each of its parts does. *)
Theorem guard_reports_first_offender :
  forall (a b : dict) key s,
    detect_placeholders a = None ->
    (has_marker s = true ->
     detect_placeholders (a ++ (key, VStr s) :: b)%list
     = Some ("Invalid placeholder value for '" ++ key ++ "': " ++ s
             ++ ". Please provide an actual value."))
    /\ (has_marker s = false -> bare_tag s = true ->
        detect_placeholders (a ++ (key, VStr s) :: b)%list
        = Some ("Placeholder detected in '" ++ key ++ "': " ++ s))
    /\ (detect_placeholders (a ++ b)%list = None <-> detect_placeholders b = None).
Proof.
  intros a b key s Ha. rewrite !detect_placeholders_app, Ha. simpl.
  split; [|split].
  - now intros ->.
  - now intros -> ->.
  - reflexivity.
Qed.

Lemma guard_reports_first_offender_witness :
  detect_placeholders
    [("course_id", VInt 5); ("title", VStr "Welcome");
     ("body", VStr "<p><YOUR_TEXT></p>"); ("editing_roles", VStr "<ROLE>")]
  = Some ("Invalid placeholder value for 'body': <p><YOUR_TEXT></p>"
          ++ ". Please provide an actual value.")
  /\ detect_placeholders
       [("course_id", VInt 5); ("title", VStr "Welcome");
        ("body", VStr "<TEXT>"); ("editing_roles", VStr "<ROLE>")]
     = Some "Placeholder detected in 'body': <TEXT>".
Proof.
  split.
  - apply (proj1 (guard_reports_first_offender
                    [("course_id", VInt 5); ("title", VStr "Welcome")]
                    [("editing_roles", VStr "<ROLE>")] "body" "<p><YOUR_TEXT></p>"
                    eq_refl)).
    reflexivity.
  - apply (proj1 (proj2 (guard_reports_first_offender
                    [("course_id", VInt 5); ("title", VStr "Welcome")]
                    [("editing_roles", VStr "<ROLE>")] "body" "<TEXT>"
                    eq_refl))); reflexivity.
Defined.

Lemma upper_lower_char (c : ascii) : upper_char (lower_char c) = upper_char c.
Proof. destruct c as [[] [] [] [] [] [] [] []]; reflexivity. Qed.

Lemma upper_upper_char (c : ascii) : upper_char (upper_char c) = upper_char c.
Proof. destruct c as [[] [] [] [] [] [] [] []]; reflexivity. Qed.

Lemma upper_lower (s : string) : upper (lower s) = upper s.
Proof.
  unfold upper, lower. induction s as [|c s IH]; simpl; [reflexivity|].
  now rewrite upper_lower_char, IH.
Qed.

Lemma upper_upper (s : string) : upper (upper s) = upper s.
Proof.
  unfold upper. induction s as [|c s IH]; simpl; [reflexivity|].
  now rewrite upper_upper_char, IH.
Qed.

Lemma is_ascii_map_string (f : ascii -> ascii) (s : string) :
  (forall c, (nat_of_ascii c <? 128)%nat = true -> (nat_of_ascii (f c) <? 128)%nat = true) ->
  is_ascii s = true -> is_ascii (map_string f s) = true.
Proof.
  intros Hf. unfold is_ascii. induction s as [|c s IH]; [reflexivity|].
  cbn [all_chars map_string]. intros H. apply andb_true_iff in H as [Hc Hs].
  apply andb_true_iff. split; [now apply Hf|now apply IH].
Qed.

Lemma upper_char_ascii (c : ascii) :
  (nat_of_ascii c <? 128)%nat = true -> (nat_of_ascii (upper_char c) <? 128)%nat = true.
Proof. destruct c as [[] [] [] [] [] [] [] []]; intros H; vm_compute in *; congruence. Qed.

Lemma lower_char_ascii (c : ascii) :
  (nat_of_ascii c <? 128)%nat = true -> (nat_of_ascii (lower_char c) <? 128)%nat = true.
Proof. destruct c as [[] [] [] [] [] [] [] []]; intros H; vm_compute in *; congruence. Qed.

(** X13.  On a value of ASCII characters, where [upper] and [lower] are
    [str.upper] and [str.lower], the marker test does not depend on the
    letter case: the lower-cased and the upper-cased forms of the value
    are ASCII text again and get the verdict of the value itself, so a
    marker is refused however the model spells it. *)
Theorem marker_test_ignores_case :
  forall s,
    is_ascii s = true ->
    is_ascii (lower s) = true /\ is_ascii (upper s) = true
    /\ has_marker (lower s) = has_marker s
    /\ has_marker (upper s) = has_marker s
    /\ (has_marker s = true -> forall key,
          detect_placeholders [(key, VStr (lower s))] <> None
          /\ detect_placeholders [(key, VStr (upper s))] <> None).
Proof.
  intros s Hs.
  assert (Hl : has_marker (lower s) = has_marker s)
    by (unfold has_marker; now rewrite upper_lower).
  assert (Hu : has_marker (upper s) = has_marker s)
    by (unfold has_marker; now rewrite upper_upper).
  split; [apply is_ascii_map_string; [exact lower_char_ascii|exact Hs]|].
  split; [apply is_ascii_map_string; [exact upper_char_ascii|exact Hs]|].
  split; [exact Hl|]. split; [exact Hu|].
  intros Hm key. simpl. rewrite Hl, Hu, Hm. split; discriminate.
Qed.

Lemma marker_test_ignores_case_witness :
  detect_placeholders [("body", VStr (lower "Dear <Insert_Name>, welcome"))] <> None
  /\ detect_placeholders [("body", VStr (upper "Dear <Insert_Name>, welcome"))] <> None.
Proof.
  apply (proj2 (proj2 (proj2 (proj2
           (marker_test_ignores_case "Dear <Insert_Name>, welcome" eq_refl)))));
    reflexivity.
Defined.

Lemma lstrip_blank (ws : string) : blank ws = true -> lstrip ws = EmptyString.
Proof.
  unfold blank. induction ws as [|c ws IH]; simpl; [reflexivity|].
  intros H. apply andb_true_iff in H as [Hc Hw]. rewrite Hc. now apply IH.
Qed.

Lemma rstrip_blank (ws : string) : blank ws = true -> rstrip ws = EmptyString.
Proof.
  unfold blank. induction ws as [|c ws IH]; simpl; [reflexivity|].
  intros H. apply andb_true_iff in H as [Hc Hw]. now rewrite (IH Hw), Hc.
Qed.

Lemma lstrip_app_blank (ws t : string) :
  blank ws = true -> lstrip (ws ++ t) = lstrip t.
Proof.
  unfold blank. induction ws as [|c ws IH]; simpl; [reflexivity|].
  intros H. apply andb_true_iff in H as [Hc Hw]. rewrite Hc. now apply IH.
Qed.

Lemma rstrip_app_blank (t ws : string) :
  blank ws = true -> rstrip (t ++ ws) = rstrip t.
Proof.
  intros H. induction t as [|c t IH]; simpl.
  - now apply rstrip_blank.
  - now rewrite IH.
Qed.

Lemma strip_app_blank (s ws : string) :
  blank ws = true -> rstrip (lstrip (s ++ ws)) = rstrip (lstrip s).
Proof.
  intros H. induction s as [|c s IH].
  - simpl. now rewrite (lstrip_blank ws H).
  - simpl. destruct (is_space c); [exact IH|].
    change (String c (s ++ ws)) with (String c s ++ ws).
    now apply rstrip_app_blank.
Qed.

(** X14.  White space around a value does not change what [strip] returns,
    hence not the verdict of the single-tag test: a padded placeholder is
    refused like the bare one, and a padded HTML fragment passes like the
    bare one. *)
Theorem single_tag_test_ignores_padding :
  forall before s after,
    blank before = true -> blank after = true ->
    strip (before ++ s ++ after) = strip s
    /\ bare_tag (before ++ s ++ after) = bare_tag s.
Proof.
  intros before s after Hb Ha.
  assert (H : strip (before ++ s ++ after) = strip s).
  { unfold strip. rewrite (lstrip_app_blank before _ Hb).
    now apply strip_app_blank. }
  split; [exact H|]. unfold bare_tag. now rewrite H.
Qed.

Lemma single_tag_test_ignores_padding_witness :
  strip ((" " ++ nl) ++ "<PAGE_BODY>" ++ "  ") = strip "<PAGE_BODY>"
  /\ bare_tag ((" " ++ nl) ++ "<PAGE_BODY>" ++ "  ") = bare_tag "<PAGE_BODY>".
Proof.
  apply (single_tag_test_ignores_padding (" " ++ nl) "<PAGE_BODY>" "  ");
    reflexivity.
Defined.

(* ================================================================= *)
(** * Further properties of the extraction *)

Lemma substring_full (s : string) : substring 0 (String.length s) s = s.
Proof. induction s as [|c s IH]; simpl; [reflexivity|now rewrite IH]. Qed.

Lemma endswith_last_char (c : ascii) (s : string) :
  endswith (String c EmptyString) s = true ->
  0 < String.length s /\ char_at s (String.length s - 1) c = true.
Proof.
  induction s as [|a s IH]; intros H; simpl in H; [discriminate|].
  apply orb_true_iff in H as [H|H].
  - apply String.eqb_eq in H. injection H as <- <-. simpl.
    split; [lia|]. unfold char_at. simpl. apply Ascii.eqb_refl.
  - destruct (IH H) as [Hlen Hc]. cbn [String.length]. split; [lia|].
    replace (S (String.length s) - 1) with (S (String.length s - 1)) by lia.
    now rewrite char_at_cons.
Qed.

(** X15.  A reply that is a tool call from its first to its last
    character is taken as a whole: when the reply starts with an opening
    brace, ends with a closing brace, contains "tool" and decodes to an
    object with the keys [tool] and [parameters], that object is what is
    proposed, whatever objects are nested in it. *)
Theorem whole_reply_wins :
  forall E text d,
    startswith "{" text = true ->
    endswith "}" text = true ->
    contains "tool" text = true ->
    json_loads E text = Parsed (VDict d) ->
    dmem "tool" d = true ->
    dmem "parameters" d = true ->
    extract_tool_call E text
    = Some {| function_name := py_get d "tool"; arguments := py_get d "parameters" |}.
Proof.
  intros E text d Hs He Ht Hl Hk1 Hk2.
  destruct (endswith_last_char "}" text He) as [Hlen Hclose].
  assert (Hopen : char_at text 0 "{" = true).
  { destruct text as [|c r]; [discriminate|]. simpl in Hs.
    rewrite andb_true_r in Hs. unfold char_at. simpl.
    now rewrite Ascii.eqb_sym. }
  apply (extract_first E text 0 (String.length text) d).
  - destruct text as [|c r]; [discriminate|]. now rewrite contains_cons, Hs.
  - exact Ht.
  - split; [exact Hopen|]. split; [lia|exact Hclose].
  - unfold accepts, slice. rewrite Nat.sub_0_r, substring_full. now repeat split.
  - intros s' e' (_ & Hrange & _) [Hlt|[-> Hlt]]; lia.
Qed.

Lemma whole_reply_wins_witness :
  extract_tool_call idle_env nested_reply
  = Some {| function_name :=
              py_get [("tool", VStr "create_page");
                      ("parameters",
                       VDict [("tool", VStr "delete_page"); ("parameters", VDict [])])]
                     "tool";
            arguments :=
              py_get [("tool", VStr "create_page");
                      ("parameters",
                       VDict [("tool", VStr "delete_page"); ("parameters", VDict [])])]
                     "parameters" |}.
Proof.
  apply (whole_reply_wins idle_env nested_reply); reflexivity.
Defined.

(* ================================================================= *)
(** * Properties of the tool catalog *)

Lemma tool_map_set_names (m : list tool) (t : tool) (n : string) :
  In n (map name (tool_map_set m t)) <-> n = name t \/ In n (map name m).
Proof.
  induction m as [|t0 m IH]; simpl.
  - split; [intros [<-|[]]; now left|intros [->|[]]; now left].
  - destruct (String.eqb_spec (name t0) (name t)) as [Heq|Hne]; simpl.
    + rewrite Heq. intuition congruence.
    + rewrite IH. tauto.
Qed.

Lemma tool_map_set_nodup (m : list tool) (t : tool) :
  NoDup (map name m) -> NoDup (map name (tool_map_set m t)).
Proof.
  induction m as [|t0 m IH]; simpl; intros H.
  - constructor; [intros []|constructor].
  - inversion H as [|x l Hnot Hnd]; subst.
    destruct (String.eqb_spec (name t0) (name t)) as [Heq|Hne]; simpl.
    + constructor; [now rewrite <- Heq|assumption].
    + constructor; [|now apply IH].
      rewrite tool_map_set_names. intros [Heq|Hin]; [now apply Hne|now apply Hnot].
Qed.

Lemma tool_map_set_members (m : list tool) (t x : tool) :
  In x (tool_map_set m t) -> x = t \/ In x m.
Proof.
  induction m as [|t0 m IH]; simpl.
  - intros [<-|[]]. now left.
  - destruct (String.eqb (name t0) (name t)); simpl.
    + intros [<-|H]; [now left|right; now right].
    + intros [<-|H]; [right; now left|].
      destruct (IH H); [now left|right; now right].
Qed.

Lemma tool_map_set_find (m : list tool) (t : tool) (n : string) :
  find (fun x => String.eqb (name x) n) (tool_map_set m t)
  = if String.eqb (name t) n then Some t
    else find (fun x => String.eqb (name x) n) m.
Proof.
  induction m as [|t0 m IH]; simpl.
  - now destruct (String.eqb (name t) n).
  - destruct (String.eqb_spec (name t0) (name t)) as [Heq|Hne]; simpl.
    + rewrite Heq. now destruct (String.eqb (name t) n).
    + rewrite IH. destruct (String.eqb_spec (name t0) n) as [H0|H0];
        [|reflexivity].
      destruct (String.eqb_spec (name t) n) as [H1|H1]; [|reflexivity].
      congruence.
Qed.

Lemma register_find (has_method : string -> bool) (m : list tool)
    (d : declaration) (n : string) :
  n <> EmptyString -> has_method n = true ->
  find (fun x => String.eqb (name x) n) (register has_method m d)
  = if declares n d then Some (entry_of n d)
    else find (fun x => String.eqb (name x) n) m.
Proof.
  intros Hne Hm. unfold register, declares.
  destruct (decl_name d) as [k|]; [|reflexivity].
  destruct (String.eqb_spec k n) as [->|Hk].
  - destruct (String.eqb_spec n EmptyString); [contradiction|]. rewrite Hm. simpl.
    rewrite tool_map_set_find. simpl. now rewrite String.eqb_refl.
  - destruct (negb (String.eqb k EmptyString) && has_method k); [|reflexivity].
    rewrite tool_map_set_find. simpl.
    destruct (String.eqb_spec k n); [contradiction|reflexivity].
Qed.

Lemma find_app (A : Type) (f : A -> bool) (a b : list A) :
  find f (a ++ b)%list = match find f a with Some x => Some x | None => find f b end.
Proof.
  induction a as [|x a IH]; simpl; [reflexivity|]. now destruct (f x).
Qed.

Lemma fold_register (has_method : string -> bool) (l : list declaration)
    (acc : list tool) :
  (NoDup (map name acc) -> NoDup (map name (fold_left (register has_method) l acc)))
  /\ ((forall t, In t acc -> has_method (name t) = true /\ name t <> EmptyString) ->
      forall t, In t (fold_left (register has_method) l acc) ->
                has_method (name t) = true /\ name t <> EmptyString)
  /\ (forall n, n <> EmptyString -> has_method n = true ->
        find (fun x => String.eqb (name x) n) (fold_left (register has_method) l acc)
        = match find (declares n) (rev l) with
          | Some d => Some (entry_of n d)
          | None => find (fun x => String.eqb (name x) n) acc
          end).
Proof.
  revert acc. induction l as [|d l IH]; intros acc; simpl.
  - split; [auto|split; [auto|reflexivity]].
  - destruct (IH (register has_method acc d)) as (H1 & H2 & H3).
    split; [|split].
    + intros Hnd. apply H1. unfold register.
      destruct (decl_name d) as [k|]; [|exact Hnd].
      destruct (negb (String.eqb k EmptyString) && has_method k); [|exact Hnd].
      now apply tool_map_set_nodup.
    + intros Hacc. apply H2. intros t Hin. unfold register in Hin.
      destruct (decl_name d) as [k|]; [|now apply Hacc].
      destruct (negb (String.eqb k EmptyString) && has_method k) eqn:Hk;
        [|now apply Hacc].
      apply tool_map_set_members in Hin as [->|Hin]; [|now apply Hacc].
      simpl. apply andb_true_iff in Hk as [Hk1 Hk2]. split; [exact Hk2|].
      intros ->. discriminate.
    + intros n Hne Hm. rewrite (H3 n Hne Hm), find_app.
      destruct (find (declares n) (rev l)); [reflexivity|].
      simpl. rewrite (register_find has_method acc d n Hne Hm).
      now destruct (declares n d).
Qed.

(** X16.  The catalog built by [get_all_canvas_tools] holds no name twice;
    each of its tools has a non-empty name that is a method of the client;
    and a name that is a method of the client stands for its last
    declaration: a later declaration of the same name replaces the earlier
    one, and a name that is declared nowhere is absent. *)
Theorem catalog_is_keyed_by_name :
  forall has_method all_tools,
    NoDup (map name (get_all_canvas_tools has_method all_tools))
    /\ (forall t, In t (get_all_canvas_tools has_method all_tools) ->
                  has_method (name t) = true /\ name t <> EmptyString)
    /\ (forall n, n <> EmptyString -> has_method n = true ->
          find (fun t => String.eqb (name t) n)
               (get_all_canvas_tools has_method all_tools)
          = match find (declares n) (rev all_tools) with
            | Some d => Some {| name := n; properties := decl_properties d |}
            | None => None
            end).
Proof.
  intros has_method all_tools. unfold get_all_canvas_tools.
  destruct (fold_register has_method all_tools []) as (H1 & H2 & H3).
  split; [apply H1; constructor|]. split; [apply H2; intros t []|].
  intros n Hne Hm. now rewrite (H3 n Hne Hm).
Qed.

Lemma catalog_is_keyed_by_name_witness :
  find (fun t => String.eqb (name t) "get_page")
       (get_all_canvas_tools sample_methods sample_declarations)
  = match find (declares "get_page") (rev sample_declarations) with
    | Some d => Some {| name := "get_page"; properties := decl_properties d |}
    | None => None
    end.
Proof.
  apply (proj2 (proj2 (catalog_is_keyed_by_name sample_methods sample_declarations)));
    [discriminate|reflexivity].
Defined.

(** X17.  With the catalog of [get_all_canvas_tools], whatever a turn
    calls is a method of the client: a call made in a turn is the fixed
    [list_courses] call of the fallback or names a tool that the client
    implements, so a tool that is declared in [tools/] without a method in
    the client is never called, also when the operator confirms it. *)
Theorem only_client_methods_are_called :
  forall E st prompt has_method all_tools fn args,
    available_tools st = get_all_canvas_tools has_method all_tools ->
    In (fn, args) (invocations (render_chat E st prompt)) ->
    In (fn, args) (invocations st)
    \/ (fn, args) = list_courses_call
    \/ (has_method fn = true /\ fn <> EmptyString).
Proof.
  intros E st prompt has_method all_tools fn args Htools Hin.
  destruct (render_chat_cases E st prompt) as [Heq|(answer & calls & p' & Heq & Hc)];
    rewrite Heq in Hin; [now left|].
  simpl in Hin. apply in_app_or in Hin as [Hin|Hin]; [now left|].
  destruct Hc as [->|[(_ & -> & _)|(p & _ & _ & ->)]].
  - destruct Hin.
  - destruct Hin as [<-|[]]. right. now left.
  - right. right. unfold calls_of, accepted_call in Hin.
    destruct (find _ (available_tools st)) as [t|] eqn:Hfind; [|destruct Hin].
    assert (Ht : In t (get_all_canvas_tools has_method all_tools))
      by (rewrite <- Htools; apply (find_some _ _ Hfind)).
    apply (proj1 (proj2 (catalog_is_keyed_by_name has_method all_tools))) in Ht.
    destruct (arguments p); try destruct Hin.
    destruct (detect_placeholders _); [destruct Hin|].
    destruct (invalid_event _ _); [destruct Hin|].
    destruct Hin as [Hin|[]]. injection Hin as <- _. exact Ht.
Qed.

Lemma only_client_methods_are_called_witness :
  let st :=
    awaiting_with (get_all_canvas_tools sample_methods sample_declarations)
      VNone welcome_call in
  In ("create_page", [("course_id", VInt 5); ("title", VStr "Welcome")])
     (invocations st)
  \/ ("create_page", [("course_id", VInt 5); ("title", VStr "Welcome")])
     = list_courses_call
  \/ (sample_methods "create_page" = true /\ "create_page" <> EmptyString).
Proof.
  intros st.
  apply (only_client_methods_are_called idle_env st "yes" sample_methods
           sample_declarations).
  - reflexivity.
  - left. reflexivity.
Defined.

(* ================================================================= *)
(** * Properties of the chat service *)

Lemma contains_char_app (c : ascii) (a b : string) :
  contains (String c EmptyString) (a ++ b)
  = contains (String c EmptyString) a || contains (String c EmptyString) b.
Proof.
  induction a as [|x a IH].
  - simpl. destruct (contains (String c EmptyString) b); reflexivity.
  - change (String x a ++ b) with (String x (a ++ b)).
    rewrite !contains_cons, IH.
    change (startswith (String c EmptyString) (String x (a ++ b)))
      with (Ascii.eqb c x && true).
    change (startswith (String c EmptyString) (String x a))
      with (Ascii.eqb c x && true).
    now rewrite orb_assoc.
Qed.

Lemma extract_needs_brace (E : env) (text : string) :
  contains "{" text = false -> extract_tool_call E text = None.
Proof. intros H. unfold extract_tool_call. now rewrite H. Qed.

(** X18.  [GroqService.chat] turns a failure of the completion request
    into a reply.  With the handler's chat service being [GroqService.chat]
    and the request failing with a message that holds no opening brace, a
    turn taken while nothing is pending proposes nothing, and a prompt that
    asks to list courses is still answered from Canvas by the fallback
    call; any other prompt is answered with the failure text, followed at
    most by the note that no action was executed. *)
Theorem chat_failure_is_a_reply :
  forall E st prompt system_prompt create exc,
    (forall messages tools,
        chat E messages tools
        = Returned (groq_chat system_prompt create messages tools)) ->
    (forall messages, create messages = Raised exc) ->
    contains "{" exc = false ->
    pending_confirmation st = None ->
    prompt <> EmptyString ->
    pending_confirmation (render_chat E st prompt) = None
    /\ (contains "list" (lower prompt) && contains "course" (lower prompt) = true ->
        invocations (render_chat E st prompt)
        = (invocations st
           ++ [("list_courses",
                [("enrollment_type", VStr "teacher");
                 ("enrollment_state", VStr "active")])])%list)
    /\ (contains "list" (lower prompt) && contains "course" (lower prompt) = false ->
        invocations (render_chat E st prompt) = invocations st
        /\ exists note,
             (note = EmptyString \/ note = no_action_note)
             /\ messages (render_chat E st prompt)
                = (messages st
                   ++ [user prompt;
                       assistant
                         (("Error communicating with Groq: " ++ exc ++ nl ++ nl
                           ++ "Make sure GROQ_API_KEY is set.") ++ note)])%list).
Proof.
  intros E st prompt system_prompt create exc Hchat Hdown Hexc Hp Hne.
  set (reply := groq_failure exc).
  assert (Hreply : chat E (lastn 10 (messages st ++ [user prompt])%list)
                     (available_tools st) = Returned reply).
  { rewrite Hchat. unfold groq_chat. rewrite Hdown. reflexivity. }
  assert (Hx : extract_tool_call E reply = None).
  { apply extract_needs_brace. unfold reply, groq_failure.
    rewrite !contains_char_app, Hexc. reflexivity. }
  rewrite (render_chat_idle E st prompt Hp Hne).
  split; [|split].
  - rewrite process_message_no_call; [exact Hp|]. right. now exists reply.
  - intros Hask. apply andb_true_iff in Hask as [Hl Hc].
    now rewrite (process_message_fallback E st prompt reply Hreply Hx Hl Hc).
  - intros Hask. unfold process_message. rewrite Hreply, Hx, Hask. simpl.
    split; [apply app_nil_r|].
    unfold hallucination_note. simpl negb. rewrite andb_true_l.
    destruct (existsb _ action_phrases); simpl.
    + destruct (contains "course" (lower prompt) || contains "page" (lower prompt)
                || contains "module" (lower prompt)
                || contains "announcement" (lower prompt)).
      * exists no_action_note. split; [now right|reflexivity].
      * exists EmptyString. split; [now left|]. now rewrite append_empty_r.
    + exists EmptyString. split; [now left|]. now rewrite append_empty_r.
Qed.

Lemma chat_failure_is_a_reply_witness :
  invocations (render_chat (offline_env "Connection error.") (initial_session VNone)
                 "list my courses")
  = [("list_courses",
      [("enrollment_type", VStr "teacher"); ("enrollment_state", VStr "active")])]
  /\ invocations (render_chat (offline_env "Connection error.") (initial_session VNone)
                    "good morning") = []
  /\ exists note,
       (note = EmptyString \/ note = no_action_note)
       /\ messages (render_chat (offline_env "Connection error.")
                      (initial_session VNone) "good morning")
          = (messages (initial_session VNone)
             ++ [user "good morning";
                 assistant
                   (("Error communicating with Groq: " ++ "Connection error."
                     ++ nl ++ nl ++ "Make sure GROQ_API_KEY is set.") ++ note)])%list.
Proof.
  split.
  - apply (proj1 (proj2
             (chat_failure_is_a_reply (offline_env "Connection error.")
                (initial_session VNone) "list my courses"
                (fun _ => "You are a Canvas LMS assistant.")
                (fun _ => Raised "Connection error.") "Connection error."
                (fun _ _ => eq_refl) (fun _ => eq_refl) eq_refl eq_refl
                ltac:(discriminate)))).
    reflexivity.
  - apply (proj2 (proj2
             (chat_failure_is_a_reply (offline_env "Connection error.")
                (initial_session VNone) "good morning"
                (fun _ => "You are a Canvas LMS assistant.")
                (fun _ => Raised "Connection error.") "Connection error."
                (fun _ _ => eq_refl) (fun _ => eq_refl) eq_refl eq_refl
                ltac:(discriminate)))).
    reflexivity.
Defined.

(* ================================================================= *)
(** * Properties of the Canvas client *)

Lemma lstrip_char_slashes (n : nat) (s : string) :
  lstrip_char "/" (slashes n ++ s) = lstrip_char "/" s.
Proof. induction n as [|n IH]; [reflexivity|exact IH]. Qed.

Lemma rstrip_char_only_slashes (n : nat) : rstrip_char "/" (slashes n) = EmptyString.
Proof. induction n as [|n IH]; simpl; [reflexivity|]. now rewrite IH. Qed.

Lemma rstrip_char_slashes (s : string) (n : nat) :
  rstrip_char "/" (s ++ slashes n) = rstrip_char "/" s.
Proof.
  induction s as [|c s IH]; simpl.
  - apply rstrip_char_only_slashes.
  - now rewrite IH.
Qed.

Lemma rstrip_char_no_trailing (c : ascii) (s : string) :
  endswith (String c EmptyString) (rstrip_char c s) = false.
Proof.
  induction s as [|a s IH]; [reflexivity|]. simpl.
  destruct (rstrip_char c s) as [|b r] eqn:Hr.
  - destruct (Ascii.eqb a c) eqn:Ha; [reflexivity|]. simpl.
    rewrite orb_false_r. apply String.eqb_neq. intros Heq.
    injection Heq as ->. now rewrite Ascii.eqb_refl in Ha.
  - change (endswith (String c EmptyString) (String a (String b r)))
      with (String.eqb (String c EmptyString) (String a (String b r))
            || endswith (String c EmptyString) (String b r)).
    rewrite IH, orb_false_r. apply String.eqb_neq. discriminate.
Qed.

Lemma lstrip_char_no_leading (c : ascii) (s : string) :
  startswith (String c EmptyString) (lstrip_char c s) = false.
Proof.
  induction s as [|a s IH]; [reflexivity|]. simpl.
  destruct (Ascii.eqb a c) eqn:Ha; [exact IH|]. simpl.
  rewrite Ascii.eqb_sym, Ha. reflexivity.
Qed.

(** X19.  The URL of a request does not depend on slashes at the end of
    the base URL or at the start of the endpoint: they are removed, so what
    stands before [/api/v1/] never ends with a slash, what stands after it
    never starts with one, and adding such slashes gives the same URL. *)
Theorem request_url_ignores_extra_slashes :
  forall base_url endpoint n m,
    request_url (base_url ++ slashes n) (slashes m ++ endpoint)
    = request_url base_url endpoint
    /\ request_url base_url endpoint
       = rstrip_char "/" base_url ++ "/api/v1/" ++ lstrip_char "/" endpoint
    /\ endswith "/" (rstrip_char "/" base_url) = false
    /\ startswith "/" (lstrip_char "/" endpoint) = false.
Proof.
  intros base_url endpoint n m. unfold request_url.
  rewrite rstrip_char_slashes, lstrip_char_slashes.
  repeat split.
  - apply rstrip_char_no_trailing.
  - apply lstrip_char_no_leading.
Qed.

(* ================================================================= *)
(** * Properties of the HTML helpers *)

Lemma contains_app_r (pat a b : string) :
  contains pat b = true -> contains pat (a ++ b) = true.
Proof.
  intros H. induction a as [|x a IH]; [exact H|].
  change (String x a ++ b) with (String x (a ++ b)).
  rewrite contains_cons, IH. apply orb_true_r.
Qed.

(** Looks for a closing tag at the head of one of the appended parts. *)
Ltac find_closing_tag :=
  first [reflexivity | apply contains_app_r; find_closing_tag].

(** X20.  What the HTML helpers return is never taken for a placeholder
    by the single-tag test of the guard: every helper closes a tag, so its
    result contains [</], whatever text it is given. *)
Theorem html_helpers_pass_single_tag_test :
  (forall text level, bare_tag (styled_header text level) = false)
  /\ (forall text bold italic, bare_tag (styled_paragraph text bold italic) = false)
  /\ (forall items ordered, bare_tag (styled_list items ordered) = false)
  /\ (forall message alert_type, bare_tag (alert_box message alert_type) = false)
  /\ (forall text url, bare_tag (create_link text url) = false)
  /\ (forall code language, bare_tag (format_code code language) = false)
  /\ (forall headers rows, bare_tag (create_table headers rows) = false).
Proof.
  repeat split; intros; apply close_tag_not_bare;
    unfold styled_header, styled_paragraph, styled_list, alert_box, create_link,
      format_code, create_table;
    find_closing_tag.
Qed.

(* ================================================================= *)
(** * Properties of the rendering of results *)

Lemma firstn_app_long (A : Type) (n : nat) (l extra : list A) :
  n <= List.length l -> firstn n (l ++ extra)%list = firstn n l.
Proof.
  intros H. rewrite firstn_app.
  replace (n - List.length l) with 0 by lia. simpl. apply app_nil_r.
Qed.

Lemma append_assoc_r (a b c : string) : (a ++ b) ++ c = a ++ b ++ c.
Proof. induction a as [|x a IH]; simpl; [reflexivity|now rewrite IH]. Qed.

(** X21.  A rendered list shows its first twenty entries and a mark that
    more follow.  For a list of one to twenty entries the answer to a
    confirmed call and the answer of the fallback are their headers
    followed by one line for each entry, without a mark; for a list of
    more than twenty entries they are the answers for its first twenty
    entries followed by a line break and the mark, whatever the entries
    after the twentieth are. *)
Theorem rendering_stops_after_twenty :
  forall E (shown rest : list pyval),
    shown <> [] ->
    List.length shown <= 20 ->
    render_result E (VList shown)
    = "✅ Operation completed successfully!" ++ nl ++ nl
      ++ join nl (map (item_line E) shown)
    /\ courses_text E (Returned (VList shown))
       = "✅ Courses:" ++ nl ++ nl ++ join nl (map (item_line E) shown)
    /\ (List.length shown = 20 -> rest <> [] ->
        render_result E (VList (shown ++ rest)%list)
        = render_result E (VList shown) ++ nl ++ "…"
        /\ courses_text E (Returned (VList (shown ++ rest)%list))
           = courses_text E (Returned (VList shown)) ++ nl ++ "…").
Proof.
  intros E shown rest Hne Hlen.
  assert (Hall : firstn 20 shown = shown) by now apply firstn_all2.
  assert (Hno : more (List.length shown) = EmptyString).
  { unfold more. destruct (Nat.ltb_spec 20 (List.length shown)); [lia|reflexivity]. }
  destruct shown as [|x shown]; [now destruct Hne|].
  assert (Hshort : render_result E (VList (x :: shown))
                   = "✅ Operation completed successfully!" ++ nl ++ nl
                     ++ join nl (map (item_line E) (x :: shown))).
  { unfold render_result. rewrite Hall, Hno, append_empty_r.
    now rewrite ?append_assoc_r. }
  assert (Hcourses : courses_text E (Returned (VList (x :: shown)))
                     = "✅ Courses:" ++ nl ++ nl
                       ++ join nl (map (item_line E) (x :: shown))).
  { unfold courses_text, sliceable. simpl truthy. cbv iota.
    rewrite Hall, Hno, append_empty_r. now rewrite ?append_assoc_r. }
  split; [exact Hshort|]. split; [exact Hcourses|].
  intros H20 Hrest.
  assert (Hf : firstn 20 ((x :: shown) ++ rest)%list = x :: shown).
  { rewrite firstn_app_long by lia. exact Hall. }
  assert (Hm : more (List.length ((x :: shown) ++ rest)%list) = nl ++ "…").
  { unfold more. rewrite length_app.
    destruct rest as [|r rest]; [now destruct Hrest|].
    destruct (Nat.ltb_spec 20 (List.length (x :: shown) + List.length (r :: rest)));
      [reflexivity|simpl in *; lia]. }
  rewrite Hshort, Hcourses. split.
  - unfold render_result.
    change ((x :: shown) ++ rest)%list with (x :: (shown ++ rest)%list) at 1.
    cbv iota.
    change (x :: (shown ++ rest)%list) with ((x :: shown) ++ rest)%list.
    rewrite Hf, Hm. now rewrite ?append_assoc_r.
  - unfold courses_text, sliceable.
    change ((x :: shown) ++ rest)%list with (x :: (shown ++ rest)%list) at 1.
    simpl truthy. cbv iota.
    change (x :: (shown ++ rest)%list) with ((x :: shown) ++ rest)%list.
    rewrite Hf, Hm. now rewrite ?append_assoc_r.
Qed.

Lemma rendering_stops_after_twenty_witness :
  render_result idle_env
    (VList (map VInt [1; 2; 3; 4; 5; 6; 7; 8; 9; 10; 11; 12; 13; 14; 15; 16; 17; 18;
                      19; 20]%Z ++ [VInt 21; VStr "x"])%list)
  = render_result idle_env
      (VList (map VInt [1; 2; 3; 4; 5; 6; 7; 8; 9; 10; 11; 12; 13; 14; 15; 16; 17; 18;
                        19; 20]%Z))
    ++ nl ++ "…"
  /\ courses_text idle_env
       (Returned
          (VList (map VInt [1; 2; 3; 4; 5; 6; 7; 8; 9; 10; 11; 12; 13; 14; 15; 16; 17;
                            18; 19; 20]%Z ++ [VInt 21; VStr "x"])%list))
     = courses_text idle_env
         (Returned
            (VList (map VInt [1; 2; 3; 4; 5; 6; 7; 8; 9; 10; 11; 12; 13; 14; 15; 16;
                              17; 18; 19; 20]%Z)))
       ++ nl ++ "…".
Proof.
  apply (proj2 (proj2
           (rendering_stops_after_twenty idle_env
              (map VInt [1; 2; 3; 4; 5; 6; 7; 8; 9; 10; 11; 12; 13; 14; 15; 16; 17; 18;
                         19; 20]%Z)
              [VInt 21; VStr "x"] ltac:(discriminate) (le_n 20))));
    [reflexivity|discriminate].
Defined.

(* ================================================================= *)
(** * The model is not consulted while a confirmation is pending *)

(** X22.  While a confirmation is pending the chat service plays no part:
    whatever the operator types, the turn gives the same session with any
    other chat service in place, so no new proposal can replace the pending
    one before the operator has answered it. *)
Theorem pending_turn_ignores_model :
  forall E service st prompt p,
    pending_confirmation st = Some p ->
    render_chat (with_chat E service) st prompt = render_chat E st prompt.
Proof.
  intros E service st prompt p Hp. unfold render_chat. rewrite Hp.
  destruct (String.eqb prompt EmptyString); [reflexivity|].
  destruct (mem (lower prompt) affirmations); reflexivity.
Qed.

Lemma pending_turn_ignores_model_witness :
  render_chat (with_chat idle_env (fun _ _ => Returned unknown_reply))
    (awaiting welcome_call) "and also delete everything"
  = render_chat idle_env (awaiting welcome_call) "and also delete everything".
Proof.
  apply (pending_turn_ignores_model idle_env (fun _ _ => Returned unknown_reply)
           (awaiting welcome_call) "and also delete everything" welcome_call).
  reflexivity.
Defined.
